(** * tsdocs: the documentation-build job protocol

    A shallow embedding of

    - [src/client/api/get-package-docs.ts]: the poll client ([pollQueue]),
      the error taxonomy ([getErrorMessage]) and the two entry points
      ([getPackageDocs], [getPackageDocsSync]);
    - [src/server/workers/docs-builder-worker.js]: the idle watchdog and the
      job handler of the worker process.

    The JavaScript values that cross the process boundary are JSON values;
    they are modelled by [JsValue].  Asynchronous functions are modelled in a
    state-and-exception monad over an explicit [World] (clock, requests
    issued, timers set, console output); the network and the timers are an
    oracle ([Platform]). *)

From Stdlib Require Import ZArith String Ascii List Bool Lia DecimalString.
Import ListNotations.
Local Open Scope string_scope.
Local Open Scope Z_scope.
Set Warnings "-register-all".

(** ** JavaScript values *)

Module Js.

(** The values [JSON.parse] produces, and [undefined] for what is absent.
    Numbers are the integers (HTTP status codes, intervals and clock readings
    in milliseconds); an object is the list of its own properties. *)
Inductive JsValue : Type :=
| JsUndefined
| JsNull
| JsBool (b : bool)
| JsNumber (n : Z)
| JsString (s : string)
| JsArray (elems : list JsValue)
| JsObject (props : list (string * JsValue)).

(** How an evaluation completes: with a value, or abruptly with a thrown
    value. *)
Inductive Completion (A : Type) : Type :=
| Normal (a : A)
| Throw (e : JsValue).
Arguments Normal {A} a.
Arguments Throw {A} e.

(** A [TypeError] instance, by the properties a handler can read from it;
    the messages are worded as V8 words them. *)
Definition TypeError (message : string) : JsValue :=
  JsObject [("name", JsString "TypeError"); ("message", JsString message)].

Definition nl : string := String (ascii_of_nat 10) EmptyString.

(** [Number::toString] on an integer (exact below 10^21). *)
Definition number_to_string (n : Z) : string :=
  NilZero.string_of_int (Z.to_int n).

(** [ToBoolean]. *)
Definition truthy (v : JsValue) : bool :=
  match v with
  | JsUndefined | JsNull => false
  | JsBool b => b
  | JsNumber n => negb (n =? 0)
  | JsString s => negb (s =? "")%string
  | JsArray _ | JsObject _ => true
  end.

Definition nullish (v : JsValue) : bool :=
  match v with
  | JsUndefined | JsNull => true
  | _ => false
  end.

(** [v === "lit"] and [v === n]. *)
Definition is_string (v : JsValue) (lit : string) : bool :=
  match v with
  | JsString s => (s =? lit)%string
  | _ => false
  end.

Definition is_number (v : JsValue) (lit : Z) : bool :=
  match v with
  | JsNumber n => n =? lit
  | _ => false
  end.

(** Own properties of an object: the first binding of a key is the
    property. *)
Fixpoint lookup (k : string) (props : list (string * JsValue)) : option JsValue :=
  match props with
  | [] => None
  | (k', v) :: rest => if (k' =? k)%string then Some v else lookup k rest
  end.

Definition has_own (k : string) (props : list (string * JsValue)) : bool :=
  match lookup k props with
  | Some _ => true
  | None => false
  end.

(** [{...props, k: v}]: an existing property keeps its place and takes the
    new value, a new one is added last. *)
Fixpoint define (k : string) (v : JsValue) (props : list (string * JsValue))
  : list (string * JsValue) :=
  match props with
  | [] => [(k, v)]
  | (k', v') :: rest =>
      if (k' =? k)%string then (k', v) :: rest else (k', v') :: define k v rest
  end.

(** [v.k] on a value that is neither [undefined] nor [null], for the
    property names this code reads ([status], [name], [extra], [message],
    ...), none of which a built-in prototype defines: an object gives its own
    property, every other value gives [undefined]. *)
Definition read (v : JsValue) (k : string) : JsValue :=
  match v with
  | JsObject props =>
      match lookup k props with
      | Some x => x
      | None => JsUndefined
      end
  | _ => JsUndefined
  end.

(** [v.k]: reading a property of [undefined] or [null] throws. *)
Definition get (v : JsValue) (k : string) : Completion JsValue :=
  match v with
  | JsUndefined =>
      Throw (TypeError ("Cannot read properties of undefined (reading '" ++ k ++ "')"))
  | JsNull =>
      Throw (TypeError ("Cannot read properties of null (reading '" ++ k ++ "')"))
  | _ => Normal (read v k)
  end.

(** [v?.k]. *)
Definition get_opt (v : JsValue) (k : string) : JsValue :=
  if nullish v then JsUndefined else read v k.

Definition cannot_convert : JsValue :=
  TypeError "Cannot convert object to primitive value".

(** [ToString], which is also what [+] with a string operand and a template
    literal apply.  An array joins its elements with a comma, [undefined]
    and [null] elements giving the empty string.  An object inherits
    [Object.prototype.toString] unless it has an own [toString] property;
    a property read from JSON is not callable, and then no conversion is
    left. *)
Fixpoint ToString (v : JsValue) : Completion string :=
  match v with
  | JsUndefined => Normal "undefined"
  | JsNull => Normal "null"
  | JsBool true => Normal "true"
  | JsBool false => Normal "false"
  | JsNumber n => Normal (number_to_string n)
  | JsString s => Normal s
  | JsArray elems =>
      (fix join (l : list JsValue) : Completion string :=
         match l with
         | [] => Normal ""
         | x :: rest =>
             match (if nullish x then Normal "" else ToString x) with
             | Throw e => Throw e
             | Normal s =>
                 match rest with
                 | [] => Normal s
                 | _ :: _ =>
                     match join rest with
                     | Throw e => Throw e
                     | Normal r => Normal (s ++ "," ++ r)
                     end
                 end
             end
         end) elems
  | JsObject props =>
      if has_own "toString" props then Throw cannot_convert
      else Normal "[object Object]"
  end.

(** [Array.prototype.join(sep)]. *)
Definition element_string (x : JsValue) : Completion string :=
  if nullish x then Normal "" else ToString x.

Fixpoint Array_join (sep : string) (l : list JsValue) : Completion string :=
  match l with
  | [] => Normal ""
  | x :: rest =>
      match element_string x with
      | Throw e => Throw e
      | Normal s =>
          match rest with
          | [] => Normal s
          | _ :: _ =>
              match Array_join sep rest with
              | Throw e => Throw e
              | Normal r => Normal (s ++ sep ++ r)
              end
          end
      end
  end.

(** [v.join(sep)]: only an array has a callable [join]. *)
Definition call_join (v : JsValue) (sep : string) : Completion string :=
  match v with
  | JsArray elems => Array_join sep elems
  | JsUndefined | JsNull =>
      match get v "join" with
      | Throw e => Throw e
      | Normal _ => Throw (TypeError "join is not a function")
      end
  | _ => Throw (TypeError "join is not a function")
  end.

(** [String.prototype.includes], to state what a message contains. *)
Fixpoint includes (needle hay : string) : bool :=
  String.prefix needle hay
  || match hay with
     | EmptyString => false
     | String _ rest => includes needle rest
     end.

(** Values whose [ToString] completes: no object with an own [toString]
    among the value and, for arrays, the elements that are joined. *)
Fixpoint stringifiable (v : JsValue) : bool :=
  match v with
  | JsArray elems =>
      (fix all (l : list JsValue) : bool :=
         match l with
         | [] => true
         | x :: rest => stringifiable x && all rest
         end) elems
  | JsObject props => negb (has_own "toString" props)
  | _ => true
  end.

Section JsValue_induction.

Variable Q : JsValue -> Prop.
Hypothesis Q_undefined : Q JsUndefined.
Hypothesis Q_null : Q JsNull.
Hypothesis Q_bool : forall b, Q (JsBool b).
Hypothesis Q_number : forall n, Q (JsNumber n).
Hypothesis Q_string : forall s, Q (JsString s).
Hypothesis Q_array : forall elems, Forall Q elems -> Q (JsArray elems).
Hypothesis Q_object : forall props, Q (JsObject props).

(** Induction on a value, with the property at hand for the elements of an
    array. *)
Fixpoint JsValue_elems_ind (v : JsValue) : Q v :=
  match v with
  | JsUndefined => Q_undefined
  | JsNull => Q_null
  | JsBool b => Q_bool b
  | JsNumber n => Q_number n
  | JsString s => Q_string s
  | JsArray elems =>
      Q_array elems
        ((fix each (l : list JsValue) : Forall Q l :=
            match l with
            | [] => Forall_nil Q
            | x :: rest => Forall_cons x (JsValue_elems_ind x) (each rest)
            end) elems)
  | JsObject props => Q_object props
  end.

End JsValue_induction.

End Js.
Import Js.

(** ** The client: [src/client/api/get-package-docs.ts] *)

Module Client.

Inductive Method : Type := GET | POST.

(** How a promise of [axios] settles. *)
Inductive Settled : Type :=
| Fulfilled (response : JsValue)
| Rejected (reason : JsValue).

(** What the code cannot decide: the k-th HTTP request takes some time and
    settles somehow, the k-th timer fires after some time, and
    [JSON.stringify] is the engine's. *)
Record Platform : Type := {
  respond : nat -> Method -> string -> Z * Settled;
  timer_fires : nat -> JsValue -> Z;
  JSON_stringify : JsValue -> string
}.

(** What the code can observe or cause. *)
Record World : Type := {
  now : Z;                              (* Date.now() *)
  requests : list (Method * string);    (* HTTP requests issued, oldest first *)
  timers : list JsValue;                (* delays given to setTimeout, oldest first *)
  warnings : list (list JsValue)        (* arguments of console.warn calls *)
}.

(** An [AxiosResponse] and an [AxiosError], as [axios] builds them. *)
Definition axios_response (status : Z) (data : JsValue) : JsValue :=
  JsObject [("data", data); ("status", JsNumber status)].

Definition axios_error (response : option (Z * JsValue)) : JsValue :=
  match response with
  | Some (status, data) =>
      JsObject [("message", JsString ("Request failed with status code " ++ number_to_string status));
                ("response", axios_response status data)]
  | None => JsObject [("message", JsString "Network Error")]
  end.

(** How a call of an asynchronous function ends: it returns, throws (the
    promise rejects), or is still polling when the rounds allowed are used
    up. *)
Inductive Outcome (A : Type) : Type :=
| Returned (a : A)
| Thrown (e : JsValue)
| Pending.
Arguments Returned {A} a.
Arguments Thrown {A} e.
Arguments Pending {A}.

Definition M (A : Type) : Type := World -> Outcome A * World.

Definition ret {A} (a : A) : M A := fun w => (Returned a, w).
Definition throw {A} (e : JsValue) : M A := fun w => (Thrown e, w).
Definition pending {A} : M A := fun w => (Pending, w).

Definition bind {A B} (m : M A) (k : A -> M B) : M B :=
  fun w =>
    match m w with
    | (Returned a, w') => k a w'
    | (Thrown e, w') => (Thrown e, w')
    | (Pending, w') => (Pending, w')
    end.

(** [try { x = body } catch (err) { handler } ; rest]: what [rest] throws is
    not caught. *)
Definition try_catch {A B} (body : M A) (handler : JsValue -> M B) (rest : A -> M B)
  : M B :=
  fun w =>
    match body w with
    | (Returned a, w') => rest a w'
    | (Thrown e, w') => handler e w'
    | (Pending, w') => (Pending, w')
    end.

Definition lift {A} (c : Completion A) : M A :=
  match c with
  | Normal a => ret a
  | Throw e => throw e
  end.

Declare Scope js_scope.
Delimit Scope js_scope with js.
Notation "x <- m ;; k" := (bind m (fun x => k))
  (at level 61, m at next level, right associativity) : js_scope.
Notation "m ;;; k" := (bind m (fun _ => k))
  (at level 61, right associativity) : js_scope.
Local Open Scope js_scope.

Definition PackageNotFoundError : string := "PackageNotFoundError".
Definition PackageVersionMismatchError : string := "PackageVersionMismatchError".
Definition TypeDefinitionResolveError : string := "TypeDefinitionResolveError".
Definition TypeDocBuildError : string := "TypeDocBuildError".

Definition POLL_TIMEOUT : Z := 200000.

Inductive PackageDocsResponse : Type :=
| Success
| Failure (errorCode : JsValue) (errorMessage : string).

(** The world after a request that took [d] ms, after a timer that fired
    after [d] ms, and after a warning. *)
Definition issued (m : Method) (url : string) (d : Z) (w : World) : World :=
  {| now := now w + d; requests := requests w ++ [(m, url)];
     timers := timers w; warnings := warnings w |}.

Definition slept (ms : JsValue) (d : Z) (w : World) : World :=
  {| now := now w + d; requests := requests w; timers := timers w ++ [ms];
     warnings := warnings w |}.

Definition warned (args : list JsValue) (w : World) : World :=
  {| now := now w; requests := requests w; timers := timers w;
     warnings := warnings w ++ [args] |}.

Definition Date_now : M Z := fun w => (Returned (now w), w).

Definition console_warn (args : list JsValue) : M unit :=
  fun w => (Returned tt, warned args w).

Section WithPlatform.

Variable P : Platform.

(** [await axios.get(url)] and [await axios.post(url)]: the request is
    issued, the clock moves by the round trip, the promise settles. *)
Definition axios_request (m : Method) (url : string) : M JsValue :=
  fun w =>
    let '(d, settled) := respond P (length (requests w)) m url in
    match settled with
    | Fulfilled r => (Returned r, issued m url d w)
    | Rejected e => (Thrown e, issued m url d w)
    end.

(** [await sleep(ms)]: the timer is set and the clock moves until it
    fires. *)
Definition sleep (ms : JsValue) : M unit :=
  fun w => (Returned tt, slept ms (timer_fires P (length (timers w)) ms) w).

Definition timeout_message : string :=
  "Building docs took longer than expected. Check back in sometime to see if the load on the server has reduced? If this persists, file an issue.".

Definition removed_from_queue_message : string :=
  "Building docs for this package failed, because the job to build the docs was removed from queue.".

Definition unknown_status_prefix : string :=
  "Failed because the polling API returned an unknown status: ".

Definition version_mismatch_prefix : string :=
  "The given version for this package was not found on the npm registry." ++ nl
  ++ " Found versions: " ++ nl.

Definition typedoc_head : string :=
  "Failed to generate documentation for this package. <br /> " ++ nl
  ++ "            <details>" ++ nl
  ++ "              <summary>See stack trace</summary>" ++ nl
  ++ "              <pre>" ++ nl
  ++ "                <code><b>".

Definition typedoc_tail : string :=
  "</code>" ++ nl
  ++ "              </pre>" ++ nl
  ++ "            </details>".

(** [getErrorMessage(error)]. *)
Definition getErrorMessage (error : JsValue) : M string :=
  name <- lift (get error "name") ;;
  if is_string name PackageNotFoundError then
    ret "This package could not be found on the npm registry. Did you get the name right?"
  else if is_string name PackageVersionMismatchError then
    extra <- lift (get error "extra") ;;
    versions <- lift (call_join extra ", ") ;;
    ret (version_mismatch_prefix ++ versions)
  else if is_string name TypeDefinitionResolveError then
    ret ("Failed to resolve types for this package. "
         ++ "This package likely does not ship with types, and it does not have a corresponding package `@types` package "
         ++ "from which reference documentation for its APIs can be built.")
  else if is_string name TypeDocBuildError then
    extra <- lift (get error "extra") ;;
    extra_text <- lift (ToString extra) ;;
    errorStack <- lift (get error "errorStack") ;;
    (* the newline is added to the stack before the fallback is chosen *)
    stack_text <- lift (ToString errorStack) ;;
    let appended := nl ++ stack_text in
    let shown := if truthy (JsString appended) then appended else "" in
    ret (typedoc_head ++ extra_text ++ "</b>" ++ shown ++ typedoc_tail)
  else
    console_warn [JsString "Could not get error message for error: "; error] ;;;
    ret "".

(** The object [getErrorMessage] is called with: a code, what the error
    carries, and a stack that may be absent. *)
Definition error_object (code : string) (extra : JsValue) (stack : option string)
  : JsValue :=
  JsObject [("name", JsString code); ("extra", extra);
            ("errorStack", match stack with
                           | Some s => JsString s
                           | None => JsUndefined
                           end)].

(** The values of [extra] a code can be described with: an array of values
    that convert to strings for a version mismatch, a value that converts to
    a string for a build error, anything for every other code. *)
Definition extra_fits (code : string) (extra : JsValue) : bool :=
  if (code =? PackageVersionMismatchError)%string then
    match extra with
    | JsArray _ => stringifiable extra
    | _ => false
    end
  else if (code =? TypeDocBuildError)%string then stringifiable extra
  else true.

(** The [catch] block of [pollQueue]. *)
Definition pollQueue_catch (err : JsValue) : M PackageDocsResponse :=
  response <- lift (get err "response") ;;
  errorMessage <-
    (if truthy response then
       status <- lift (get response "status") ;;
       if is_number status 404 then ret removed_from_queue_message
       else
         status_text <- lift (ToString status) ;;
         data <- lift (get response "data") ;;
         ret (status_text ++ " "
              ++ (if truthy data then JSON_stringify P data else ""))
     else ret "") ;;
  ret (Failure (JsString "UNEXPECTED_DOCS_POLL_FAILURE") errorMessage).

(** The body of [pollQueue]; [self] is the recursive call, at the elapsed
    time it is given. *)
Definition pollQueue_body (self : Z -> M PackageDocsResponse)
    (jobId pollInterval : JsValue) (timeElapsed : Z) : M PackageDocsResponse :=
  if timeElapsed >? POLL_TIMEOUT then
    ret (Failure (JsString "DocsBuildTimeout") timeout_message)
  else
    start <- Date_now ;;
    try_catch
      (job <- lift (ToString jobId) ;;
       axios_request GET ("/api/docs/poll/" ++ job))
      pollQueue_catch
      (fun pollResponse =>
         data <- lift (get pollResponse "data") ;;
         status <- lift (get data "status") ;;
         if is_string status "success" then ret Success
         else if is_string status "queued" then
           sleep pollInterval ;;;
           finish <- Date_now ;;
           self (timeElapsed + finish - start)
         else if is_string status "failed" then
           errorCode <- lift (get data "errorCode") ;;
           errorMessage <- lift (get data "errorMessage") ;;
           errorStack <- lift (get data "errorStack") ;;
           message <- getErrorMessage
                        (JsObject [("name", errorCode); ("extra", errorMessage);
                                   ("errorStack", errorStack)]) ;;
           ret (Failure errorCode message)
         else
           status_text <- lift (ToString status) ;;
           ret (Failure (JsString "UNEXPECTED_DOCS_POLL_STATUS")
                  (unknown_status_prefix ++ status_text))).

(** [pollQueue({jobId, pollInterval}, timeElapsed)], allowed [fuel]
    recursive calls. *)
Fixpoint pollQueue (fuel : nat) (jobId pollInterval : JsValue) (timeElapsed : Z)
  : M PackageDocsResponse :=
  pollQueue_body
    (fun elapsed =>
       match fuel with
       | O => pending
       | S fuel' => pollQueue fuel' jobId pollInterval elapsed
       end)
    jobId pollInterval timeElapsed.

(** The URL both entry points build. *)
Definition request_url (endpoint pkg pkgVersion : string) (force : bool) : string :=
  let withForce := if force then "?force=true" else "" in
  endpoint
  ++ (if truthy (JsString pkgVersion) then pkg ++ "/" ++ pkgVersion else pkg)
  ++ withForce.

(** The [catch] block both entry points share. *)
Definition trigger_catch (err : JsValue) : M PackageDocsResponse :=
  let errorMessage := "" in
  response <- lift (get err "response") ;;
  let data := get_opt response "data" in
  if truthy data then
    name <- lift (get data "name") ;;
    message <- getErrorMessage data ;;
    ret (Failure name message)
  else
    ret (Failure (JsString "UNEXPECTED_DOCS_TRIGGER_FAILURE") errorMessage).

(** The body of a rejected request: [err.response?.data] of an
    [AxiosError]. *)
Definition body_of (response : option (Z * JsValue)) : JsValue :=
  match response with
  | Some (_, data) => data
  | None => JsUndefined
  end.

(** [getPackageDocs(pkg, pkgVersion, {force})]. *)
Definition getPackageDocs (fuel : nat) (pkg pkgVersion : string) (force : bool)
  : M PackageDocsResponse :=
  try_catch
    (axios_request POST (request_url "/api/docs/trigger/" pkg pkgVersion force))
    trigger_catch
    (fun triggerResponse =>
       triggerResult <- lift (get triggerResponse "data") ;;
       status <- lift (get triggerResult "status") ;;
       if is_string status "success" then ret Success
       else if is_string status "queued" then
         jobId <- lift (get triggerResult "jobId") ;;
         pollInterval <- lift (get triggerResult "pollInterval") ;;
         pollQueue fuel jobId pollInterval 0
       else
         status_text <- lift (ToString status) ;;
         ret (Failure (JsString "UNEXPECTED_DOCS_TRIGGER_STATUS")
                (unknown_status_prefix ++ status_text))).

(** [getPackageDocsSync(pkg, pkgVersion, {force})]. *)
Definition getPackageDocsSync (pkg pkgVersion : string) (force : bool)
  : M PackageDocsResponse :=
  try_catch
    (axios_request POST (request_url "/api/docs/build/" pkg pkgVersion force))
    trigger_catch
    (fun triggerResponse =>
       triggerResult <- lift (get triggerResponse "data") ;;
       status <- lift (get triggerResult "status") ;;
       if is_string status "success" then ret Success
       else
         errorCode <- lift (get triggerResult "errorCode") ;;
         errorMessage <- lift (get triggerResult "errorMessage") ;;
         errorStack <- lift (get triggerResult "errorStack") ;;
         message <- getErrorMessage
                      (JsObject [("name", errorCode); ("extra", errorMessage);
                                 ("errorStack", errorStack)]) ;;
         ret (Failure errorCode message)).

End WithPlatform.

End Client.

(** ** The worker: [src/server/workers/docs-builder-worker.js] *)

Module Worker.

(** The module's variable, and what the watchdog does to the process. *)
Record Process : Type := {
  workerActiveTime : Z;
  exit_code : option Z;          (* set by process.exit *)
  stdout : list string           (* console.log lines *)
}.

(** The job record the queue hands to the handler: [job.data] is the payload
    object that was enqueued, and [job.updateData(d)] replaces it. *)
Record Job : Type := {
  data : list (string * JsValue)
}.

Definition updateData (d : list (string * JsValue)) (job : Job) : Job :=
  {| data := d |}.

(** Loading the module: [let workerActiveTime = Date.now()]. *)
Definition load (now : Z) : Process :=
  {| workerActiveTime := now; exit_code := None; stdout := [] |}.

Definition idle_threshold : Z := 1000 * 60 * 5.

(** The callback given to [setInterval], run when the clock reads [now]. *)
Definition watchdog (now : Z) (p : Process) : Process :=
  if now - workerActiveTime p >? idle_threshold then
    {| workerActiveTime := workerActiveTime p;
       exit_code := Some 1;
       stdout := stdout p ++ ["Worker remained idle for too long, dying."] |}
  else p.

(** [workerActiveTime = Date.now()]. *)
Definition refresh (now : Z) (p : Process) : Process :=
  {| workerActiveTime := now; exit_code := exit_code p; stdout := stdout p |}.

Section WithBuild.

(** [generateDocsForPackage(packageJSON, {force})] of
    [../package/extractor/doc-generator]: it resolves or rejects, and is
    handed a part of the job's payload, which it may change. *)
Variable generateDocsForPackage :
  JsValue -> JsValue -> Job -> Completion JsValue * Job.

(** The [catch] block of the handler. *)
Definition handler_catch (err : JsValue) (job : Job) : Completion JsValue * Job :=
  match get err "message" with
  | Throw e => (Throw e, job)
  | Normal code =>
      let originalError := get_opt err "originalError" in
      let stacktrace := get_opt originalError "stack" in
      let message := get_opt originalError "message" in
      (Throw err,
       updateData
         (define "originalError"
            (JsObject [("code", code); ("stacktrace", stacktrace);
                       ("message", message)])
            (data job))
         job)
  end.

(** The exported job handler, invoked when the clock reads [now]. *)
Definition handler (now : Z) (job : Job) (p : Process)
  : Completion JsValue * Job * Process :=
  let p' := refresh now p in
  let packageJSON := read (JsObject (data job)) "packageJSON" in
  let force := read (JsObject (data job)) "force" in
  match generateDocsForPackage packageJSON (JsObject [("force", force)]) job with
  | (Normal docs, job') => (Normal docs, job', p')
  | (Throw err, job') =>
      let '(thrown, job'') := handler_catch err job' in
      (thrown, job'', p')
  end.

End WithBuild.

(** What happens to a worker process: the timer fires, or the queue invokes
    the handler, each at a reading of the clock. *)
Inductive Event : Type :=
| Tick (now : Z)
| JobStarts (now : Z).

(** Nothing runs in a process that has exited. *)
Definition step (p : Process) (ev : Event) : Process :=
  match exit_code p with
  | Some _ => p
  | None =>
      match ev with
      | Tick now => watchdog now p
      | JobStarts now => refresh now p
      end
  end.

Definition run (p : Process) (evs : list Event) : Process :=
  fold_left step evs p.

(** When the last job attempt started, if one did. *)
Fixpoint last_job_start (evs : list Event) : option Z :=
  match evs with
  | [] => None
  | ev :: rest =>
      match last_job_start rest with
      | Some t => Some t
      | None =>
          match ev with
          | JobStarts now => Some now
          | Tick _ => None
          end
      end
  end.

End Worker.

(** ** Scenarios *)

Module Scenario.
Import Client.

(** A timer that fires exactly when asked to. *)
Definition punctual (k : nat) (ms : JsValue) : Z :=
  match ms with
  | JsNumber n => Z.max 0 n
  | _ => 0
  end.

(** The serializer on the bodies the scenarios use. *)
Definition stringify (v : JsValue) : string :=
  match v with
  | JsObject [] => "{}"
  | JsArray [] => "[]"
  | JsNumber n => number_to_string n
  | JsBool true => "true"
  | JsBool false => "false"
  | _ => "null"
  end.

(** A server that answers the k-th request with the k-th entry of a script,
    and is unreachable afterwards. *)
Definition scripted (replies : list (Z * Settled)) : Platform :=
  {| respond := fun k _ _ => nth k replies (0, Rejected (axios_error None));
     timer_fires := punctual;
     JSON_stringify := stringify |}.

Definition world0 : World :=
  {| now := 1700000000000; requests := []; timers := []; warnings := [] |}.

Definition poll_reply (status : string) : Settled :=
  Fulfilled (axios_response 200 (JsObject [("status", JsString status)])).

(** A recursive call that only reports the elapsed time it was given. *)
Definition probe (elapsed : Z) : M PackageDocsResponse :=
  ret (Failure (JsNumber elapsed) "").

(** A build that fails the way the doc generator does: an error whose
    message is the kind, wrapping the error that caused it. *)
Definition typedoc_failure : JsValue :=
  JsObject [("message", JsString "TypeDocBuildError");
            ("originalError",
             JsObject [("message", JsString "Unexpected token");
                       ("stack", JsString "SyntaxError: Unexpected token at parse")])].

Definition failing_build (packageJSON options : JsValue) (job : Worker.Job)
  : Completion JsValue * Worker.Job :=
  (Throw typedoc_failure, job).

Definition job0 : Worker.Job :=
  {| Worker.data :=
       [("packageJSON", JsObject [("name", JsString "left-pad");
                                  ("version", JsString "1.3.0")]);
        ("force", JsBool false)] |}.

End Scenario.

(** ** What the server is taken to do *)

Module Protocol.
Import Client.

(** The URL [pollQueue] asks for a job. *)
Definition poll_url (job : string) : string := "/api/docs/poll/" ++ job.

(** The k-th request, a status query for [job], is answered with a body
    whose [status] is the string [status]. *)
Definition answers (P : Platform) (k : nat) (job status : string) : Prop :=
  exists d response data,
    respond P k GET (poll_url job) = (d, Fulfilled response)
    /\ get response "data" = Normal data
    /\ get data "status" = Normal (JsString status).

(** One round of polling [job], the query and the sleep that follows it,
    takes at most, or at least, [c] ms. *)
Definition round_at_most (P : Platform) (k k' : nat) (job : string)
    (pollInterval : JsValue) (c : Z) : Prop :=
  fst (respond P k GET (poll_url job)) + timer_fires P k' pollInterval <= c.

Definition round_at_least (P : Platform) (job : string) (pollInterval : JsValue)
    (c : Z) : Prop :=
  forall k k', c <= fst (respond P k GET (poll_url job)) + timer_fires P k' pollInterval.

(** A server on which the job never leaves the queue. *)
Definition always_queued : Platform :=
  {| respond := fun _ _ _ => (50, Scenario.poll_reply "queued");
     timer_fires := Scenario.punctual;
     JSON_stringify := Scenario.stringify |}.

(** The timeout failure of [pollQueue]. *)
Definition timed_out : PackageDocsResponse :=
  Failure (JsString "DocsBuildTimeout") timeout_message.

End Protocol.

(** ** Facts about the value layer *)

Lemma ToString_array (elems : list JsValue) :
  ToString (JsArray elems) = Array_join "," elems.
Proof.
  induction elems as [|x rest IH]; [reflexivity|].
  change (ToString (JsArray (x :: rest))) with
    (match element_string x with
     | Throw e => Throw e
     | Normal s =>
         match rest with
         | [] => Normal s
         | _ :: _ =>
             match ToString (JsArray rest) with
             | Throw e => Throw e
             | Normal r => Normal (s ++ "," ++ r)
             end
         end
     end).
  rewrite IH. reflexivity.
Qed.

Lemma stringifiable_array (elems : list JsValue) :
  stringifiable (JsArray elems) = forallb stringifiable elems.
Proof.
  induction elems as [|x rest IH]; [reflexivity|].
  change (stringifiable (JsArray (x :: rest))) with
    (stringifiable x && stringifiable (JsArray rest)).
  rewrite IH. reflexivity.
Qed.

Lemma element_string_nullish (x : JsValue) :
  nullish x = true -> element_string x = Normal "".
Proof. unfold element_string. intros ->. reflexivity. Qed.

(** Joining completes exactly when every element converts. *)
Lemma Array_join_completes (sep : string) (elems : list JsValue) :
  Forall (fun x => stringifiable x = true <-> exists s, ToString x = Normal s) elems ->
  (forallb stringifiable elems = true <-> exists s, Array_join sep elems = Normal s).
Proof.
  induction 1 as [|x rest Hx _ IH]; cbn [forallb Array_join].
  - split; [eauto | reflexivity].
  - assert (Hel : stringifiable x = true <-> exists s, element_string x = Normal s).
    { unfold element_string. destruct (nullish x) eqn:Hn; [|exact Hx].
      split; [eauto | intros _; destruct x; try discriminate; reflexivity]. }
    rewrite andb_true_iff, Hel, IH. clear Hx Hel IH.
    destruct (element_string x) as [s|e].
    + destruct rest as [|y rest'].
      * split; [eauto | intros _; split; [eauto | exists ""; reflexivity]].
      * destruct (Array_join sep (y :: rest')) as [r|e'].
        -- split; [eauto | intros _; split; eauto].
        -- split; [intros [_ [r Hr]]; discriminate | intros [r Hr]; discriminate].
    + split; [intros [[s Hs] _]; discriminate | intros [r Hr]; discriminate].
Qed.

(** [stringifiable] is exactly the set of values [ToString] completes on. *)
Lemma ToString_completes (v : JsValue) :
  stringifiable v = true <-> exists s, ToString v = Normal s.
Proof.
  induction v as [| |b|n|s|elems IH|props] using JsValue_elems_ind;
    try solve [split; [intros _; eexists; reflexivity | reflexivity]].
  - destruct b; split; try reflexivity; intros _; eexists; reflexivity.
  - rewrite ToString_array, stringifiable_array.
    apply Array_join_completes. exact IH.
  - cbn [stringifiable ToString]. destruct (has_own "toString" props); cbn.
    + split; [discriminate | intros [s Hs]; discriminate].
    + split; eauto.
Qed.

Lemma Array_join_stringifiable (sep : string) (elems : list JsValue) :
  forallb stringifiable elems = true <-> exists s, Array_join sep elems = Normal s.
Proof.
  apply Array_join_completes, Forall_forall. intros x _. apply ToString_completes.
Qed.

Lemma includes_here (needle rest : string) :
  includes needle (needle ++ rest) = true.
Proof.
  assert (Hp : String.prefix needle (needle ++ rest) = true).
  { induction needle as [|c n IH]; cbn.
    - destruct rest; reflexivity.
    - destruct (Ascii.ascii_dec c c) as [_|Hc]; [exact IH | congruence]. }
  destruct needle; cbn in *; [destruct rest; reflexivity | rewrite Hp; reflexivity].
Qed.

Lemma includes_after (needle before rest : string) :
  includes needle rest = true -> includes needle (before ++ rest) = true.
Proof.
  intros H. induction before as [|c b IH]; [exact H|].
  cbn [append includes]. rewrite IH. apply orb_true_r.
Qed.

(** ** The poll client and the error taxonomy *)

Module ClientFacts.
Import Client Scenario.
Local Open Scope js_scope.

Lemma is_string_false (v : JsValue) (lit : string) :
  v <> JsString lit -> is_string v lit = false.
Proof.
  destruct v; try reflexivity. cbn. intros H.
  destruct (String.eqb_spec s lit); [congruence | reflexivity].
Qed.

Lemma pollQueue_unfold (P : Platform) (fuel : nat) (jobId pollInterval : JsValue)
    (timeElapsed : Z) :
  pollQueue P fuel jobId pollInterval timeElapsed =
  pollQueue_body P
    (fun elapsed =>
       match fuel with
       | O => pending
       | S fuel' => pollQueue P fuel' jobId pollInterval elapsed
       end)
    jobId pollInterval timeElapsed.
Proof. destruct fuel; reflexivity. Qed.

Lemma get_not_nullish (v : JsValue) (k : string) :
  nullish v = false -> get v k = Normal (read v k).
Proof. destruct v; try discriminate; reflexivity. Qed.

(** C1, as stated, fails at the budget itself: with exactly 200,000 ms
    elapsed the status query is still issued, and a job that has succeeded
    is reported as a success. *)
Lemma pollQueue_polls_at_the_budget :
  pollQueue (scripted [(35, poll_reply "success")]) 0
    (JsString "J1") (JsNumber 1000) 200000 world0
  = (Returned Success,
     {| now := 1700000000035; requests := [(GET, "/api/docs/poll/J1")];
        timers := []; warnings := [] |}).
Proof. reflexivity. Qed.

(** C1 (amended): whenever the elapsed time given to [pollQueue] is strictly
    greater than 200,000 ms, it returns the failure [DocsBuildTimeout] with
    the fixed message and leaves the world as it was: no request is issued
    and no timer is set. *)
Theorem pollQueue_timeout_beyond_budget (P : Platform) (fuel : nat)
    (jobId pollInterval : JsValue) (timeElapsed : Z) (w : World) :
  200000 < timeElapsed ->
  pollQueue P fuel jobId pollInterval timeElapsed w
  = (Returned (Failure (JsString "DocsBuildTimeout") timeout_message), w).
Proof.
  intros H. rewrite pollQueue_unfold. unfold pollQueue_body, POLL_TIMEOUT.
  apply Z.gtb_lt in H. rewrite H. reflexivity.
Qed.

Lemma pollQueue_timeout_beyond_budget_witness :
  pollQueue (scripted [(35, poll_reply "success")]) 0
    (JsString "J1") (JsNumber 1000) 200001 world0
  = (Returned (Failure (JsString "DocsBuildTimeout") timeout_message), world0).
Proof. apply pollQueue_timeout_beyond_budget. lia. Defined.

(** C2, as stated, fails: after a status query of 40 ms that observes
    [queued] and a sleep of 1000 ms, the recursive call is given
    0 + 40 + 1000 = 1040 ms, not 0 + 40. *)
Lemma pollQueue_counts_the_sleep :
  let P := scripted [(40, poll_reply "queued")] in
  let w := slept (JsNumber 1000) 1000 (issued GET "/api/docs/poll/J1" 40 world0) in
  pollQueue_body P probe (JsString "J1") (JsNumber 1000) 0 world0 = probe 1040 w
  /\ probe 1040 w <> probe (0 + 40) w.
Proof. split; [reflexivity | discriminate]. Qed.

(** C2 (amended): in an iteration that observes [queued], the elapsed time
    given to the next iteration is the elapsed time of this one plus the
    time from the start of the status query to the end of the sleep, that
    is the duration of the query plus the duration of the sleep; the sleep
    is counted. *)
Theorem pollQueue_queued_elapsed (P : Platform) (self : Z -> M PackageDocsResponse)
    (jobId pollInterval : JsValue) (timeElapsed : Z) (w : World)
    (job : string) (d : Z) (response data : JsValue) :
  timeElapsed <= 200000 ->
  ToString jobId = Normal job ->
  respond P (length (requests w)) GET ("/api/docs/poll/" ++ job)
    = (d, Fulfilled response) ->
  get response "data" = Normal data ->
  get data "status" = Normal (JsString "queued") ->
  let nap := timer_fires P (length (timers w)) pollInterval in
  pollQueue_body P self jobId pollInterval timeElapsed w
  = self (timeElapsed + (d + nap))
      (slept pollInterval nap (issued GET ("/api/docs/poll/" ++ job) d w)).
Proof.
  intros Hte Hjob Hnet Hdata Hstatus nap.
  unfold pollQueue_body, POLL_TIMEOUT.
  destruct (Z.gtb_spec timeElapsed 200000) as [Hgt|_]; [lia|].
  unfold bind, try_catch, Date_now, axios_request at 1.
  rewrite Hjob. cbn [lift ret]. rewrite Hnet, Hdata. cbn [lift ret].
  rewrite Hstatus. cbn [lift ret is_string String.eqb Ascii.eqb Bool.eqb].
  unfold sleep. cbn [timers issued requests now slept].
  fold nap. f_equal. lia.
Qed.

Lemma pollQueue_queued_elapsed_witness :
  pollQueue_body (scripted [(40, poll_reply "queued")]) probe
    (JsString "J1") (JsNumber 1000) 0 world0
  = probe (0 + (40 + 1000))
      (slept (JsNumber 1000) 1000 (issued GET "/api/docs/poll/J1" 40 world0)).
Proof.
  apply (pollQueue_queued_elapsed (scripted [(40, poll_reply "queued")]) probe
           (JsString "J1") (JsNumber 1000) 0 world0 "J1" 40
           (axios_response 200 (JsObject [("status", JsString "queued")]))
           (JsObject [("status", JsString "queued")]));
    [lia | reflexivity | reflexivity | reflexivity | reflexivity].
Defined.

(** With a poll interval of 200,000 ms, one [queued] answer uses up the
    budget: the second query, which would have reported the success, is
    never issued. *)
Example pollQueue_sleep_exhausts_budget :
  pollQueue (scripted [(40, poll_reply "queued"); (40, poll_reply "success")]) 1
    (JsString "J1") (JsNumber 200000) 0 world0
  = (Returned (Failure (JsString "DocsBuildTimeout") timeout_message),
     slept (JsNumber 200000) 200000 (issued GET "/api/docs/poll/J1" 40 world0)).
Proof. reflexivity. Qed.

(** C3, as stated, fails: for [PackageVersionMismatchError] with an [extra]
    that is a string and not an array, [getErrorMessage] throws a
    [TypeError]. *)
Lemma getErrorMessage_throws_on_non_array_extra :
  getErrorMessage (error_object "PackageVersionMismatchError" (JsString "1.0.0") None)
    world0
  = (Thrown (TypeError "join is not a function"), world0).
Proof. reflexivity. Qed.

Lemma getErrorMessage_name (code : string) (extra : JsValue) (stack : option string) :
  get (error_object code extra stack) "name" = Normal (JsString code).
Proof. reflexivity. Qed.

Local Ltac returns := do 2 eexists; reflexivity.
Local Ltac never_returns :=
  let H := fresh in intros (? & ? & H); discriminate H.

(** C3 (amended): for every code string, every optional stack and every
    world, [getErrorMessage] returns a string exactly when [extra] fits the
    code: any [extra] for a code other than [PackageVersionMismatchError]
    and [TypeDocBuildError], an array whose elements convert to strings for
    [PackageVersionMismatchError], a value that converts to a string for
    [TypeDocBuildError]; on every other [extra] it throws. *)
Theorem getErrorMessage_returns_iff_extra_fits (code : string) (extra : JsValue)
    (stack : option string) (w : World) :
  (exists message w',
      getErrorMessage (error_object code extra stack) w = (Returned message, w'))
  <->
  extra_fits code extra = true.
Proof.
  unfold getErrorMessage, extra_fits, bind.
  rewrite getErrorMessage_name. cbn [lift ret is_string].
  unfold PackageNotFoundError, PackageVersionMismatchError,
    TypeDefinitionResolveError, TypeDocBuildError.
  destruct (String.eqb_spec code "PackageNotFoundError") as [->|_].
  { cbn. split; [reflexivity | intros _; returns]. }
  destruct (String.eqb_spec code "PackageVersionMismatchError") as [->|_].
  { cbn [get error_object read lookup String.eqb Ascii.eqb Bool.eqb lift ret].
    destruct extra as [| |b|n|s|elems|props];
      try (cbn; split; [never_returns | discriminate]).
    rewrite stringifiable_array, (Array_join_stringifiable ", " elems).
    cbn [call_join]. destruct (Array_join ", " elems) as [joined|e]; cbn.
    - split; [eauto | intros _; returns].
    - split; [never_returns | intros [r Hr]; discriminate]. }
  destruct (String.eqb_spec code "TypeDefinitionResolveError") as [->|_].
  { cbn. split; [reflexivity | intros _; returns]. }
  destruct (String.eqb_spec code "TypeDocBuildError") as [->|_].
  { cbn [get error_object read lookup String.eqb Ascii.eqb Bool.eqb lift ret].
    rewrite (ToString_completes extra).
    destruct (ToString extra) as [text|e]; cbn [lift ret throw].
    - split; [eauto | intros _; destruct stack; returns].
    - split; [never_returns | intros [r Hr]; discriminate]. }
  cbn. split; [reflexivity | intros _; returns].
Qed.

(** C4: with the stack absent, the message for [TypeDocBuildError] ends its
    code block with the text [undefined]: the stack is joined to the newline
    before the fallback to the empty string is chosen, so the fallback never
    applies. *)
Theorem getErrorMessage_absent_stack_says_undefined (extra : string) (w : World) :
  let message :=
    typedoc_head ++ extra ++ "</b>" ++ nl ++ "undefined" ++ typedoc_tail in
  getErrorMessage (error_object "TypeDocBuildError" (JsString extra) None) w
    = (Returned message, w)
  /\ includes "undefined" message = true.
Proof.
  intros message. split; [reflexivity|]. subst message.
  apply (includes_after _ typedoc_head), (includes_after _ extra),
    (includes_after _ "</b>"), (includes_after _ nl), includes_here.
Qed.

(** The same with a stack that is [null]; a stack that is the empty string
    adds only the newline. *)
Example getErrorMessage_null_stack :
  getErrorMessage
    (JsObject [("name", JsString "TypeDocBuildError"); ("extra", JsString "boom");
               ("errorStack", JsNull)]) world0
  = (Returned (typedoc_head ++ "boom" ++ "</b>" ++ nl ++ "null" ++ typedoc_tail),
     world0).
Proof. reflexivity. Qed.

Example getErrorMessage_empty_stack :
  getErrorMessage (error_object "TypeDocBuildError" (JsString "boom") (Some "")) world0
  = (Returned (typedoc_head ++ "boom" ++ "</b>" ++ nl ++ typedoc_tail), world0).
Proof. reflexivity. Qed.

(** C8: called with an error whose code is none of the four recognized
    kinds (whatever the code is: another string, absent, or not a string),
    [getErrorMessage] logs one warning, which carries the error, and returns
    the empty string; it does not throw. *)
Theorem getErrorMessage_unknown_code (error : JsValue) (w : World) :
  nullish error = false ->
  (forall kind,
      In kind [PackageNotFoundError; PackageVersionMismatchError;
               TypeDefinitionResolveError; TypeDocBuildError] ->
      read error "name" <> JsString kind) ->
  getErrorMessage error w
  = (Returned "",
     warned [JsString "Could not get error message for error: "; error] w).
Proof.
  intros Hobj Hcode. unfold getErrorMessage, bind.
  rewrite (get_not_nullish _ _ Hobj). cbn [lift ret].
  rewrite !is_string_false by (apply Hcode; cbn; tauto).
  reflexivity.
Qed.

Lemma getErrorMessage_unknown_code_witness :
  getErrorMessage (error_object "QueueStalledError" (JsNumber 3) None) world0
  = (Returned "",
     warned [JsString "Could not get error message for error: ";
             error_object "QueueStalledError" (JsNumber 3) None] world0).
Proof.
  apply getErrorMessage_unknown_code; [reflexivity|].
  intros kind [<-|[<-|[<-|[<-|[]]]]]; discriminate.
Defined.

(** C5: when the status query is rejected by the transport, [pollQueue]
    returns a failure whose code is [UNEXPECTED_DOCS_POLL_FAILURE] in every
    case: with a 404 response the message is the fixed text on the job
    removed from the queue, with any other response it is the status code,
    a space and the serialized body (nothing for a body that is falsy), and
    with no response it is the empty string. *)
Theorem pollQueue_transport_failure (P : Platform) (fuel : nat)
    (jobId pollInterval : JsValue) (timeElapsed : Z) (w : World)
    (job : string) (d : Z) (response : option (Z * JsValue)) :
  timeElapsed <= 200000 ->
  ToString jobId = Normal job ->
  respond P (length (requests w)) GET ("/api/docs/poll/" ++ job)
    = (d, Rejected (axios_error response)) ->
  pollQueue P fuel jobId pollInterval timeElapsed w
  = (Returned
       (Failure (JsString "UNEXPECTED_DOCS_POLL_FAILURE")
          match response with
          | None => ""
          | Some (status, data) =>
              if status =? 404 then removed_from_queue_message
              else number_to_string status ++ " "
                   ++ (if truthy data then JSON_stringify P data else "")
          end),
     issued GET ("/api/docs/poll/" ++ job) d w).
Proof.
  intros Hte Hjob Hnet. rewrite pollQueue_unfold.
  unfold pollQueue_body, POLL_TIMEOUT.
  destruct (Z.gtb_spec timeElapsed 200000) as [Hgt|_]; [lia|].
  unfold bind at 1, try_catch, Date_now, bind at 1, axios_request.
  rewrite Hjob. cbn [lift ret]. rewrite Hnet.
  destruct response as [[status data]|]; [|reflexivity].
  unfold pollQueue_catch, bind.
  cbn [axios_error axios_response get read lookup String.eqb Ascii.eqb Bool.eqb
       lift ret truthy is_number].
  destruct (status =? 404); reflexivity.
Qed.

Lemma pollQueue_transport_failure_witness :
  pollQueue (scripted [(12, Rejected (axios_error (Some (500, JsObject []))))]) 0
    (JsString "J1") (JsNumber 1000) 0 world0
  = (Returned (Failure (JsString "UNEXPECTED_DOCS_POLL_FAILURE") "500 {}"),
     issued GET "/api/docs/poll/J1" 12 world0).
Proof.
  apply (pollQueue_transport_failure
           (scripted [(12, Rejected (axios_error (Some (500, JsObject []))))]) 0
           (JsString "J1") (JsNumber 1000) 0 world0 "J1" 12 (Some (500, JsObject [])));
    [lia | reflexivity | reflexivity].
Defined.

(** The other two cases of C5, run. *)
Example pollQueue_job_removed :
  fst (pollQueue (scripted [(12, Rejected (axios_error (Some (404, JsString "Not Found"))))])
         0 (JsString "J1") (JsNumber 1000) 0 world0)
  = Returned (Failure (JsString "UNEXPECTED_DOCS_POLL_FAILURE") removed_from_queue_message).
Proof. reflexivity. Qed.

Example pollQueue_network_down :
  fst (pollQueue (scripted []) 0 (JsString "J1") (JsNumber 1000) 0 world0)
  = Returned (Failure (JsString "UNEXPECTED_DOCS_POLL_FAILURE") "").
Proof. reflexivity. Qed.

(** C9: when the status query is answered with a status that is none of
    [success], [queued] and [failed], [pollQueue] returns a failure whose
    code is [UNEXPECTED_DOCS_POLL_STATUS] and whose message is the fixed
    lead-in followed by the status; it does not throw.  The status is any
    value that converts to a string: every string, and also an absent
    status, [null], a number, a boolean, and arrays and objects without a
    [toString] property of their own. *)
Theorem pollQueue_unknown_status (P : Platform) (fuel : nat)
    (jobId pollInterval : JsValue) (timeElapsed : Z) (w : World)
    (job : string) (d : Z) (response data status : JsValue) :
  timeElapsed <= 200000 ->
  ToString jobId = Normal job ->
  respond P (length (requests w)) GET ("/api/docs/poll/" ++ job)
    = (d, Fulfilled response) ->
  get response "data" = Normal data ->
  get data "status" = Normal status ->
  status <> JsString "success" ->
  status <> JsString "queued" ->
  status <> JsString "failed" ->
  stringifiable status = true ->
  exists text,
    ToString status = Normal text
    /\ pollQueue P fuel jobId pollInterval timeElapsed w
       = (Returned
            (Failure (JsString "UNEXPECTED_DOCS_POLL_STATUS")
               ("Failed because the polling API returned an unknown status: " ++ text)),
          issued GET ("/api/docs/poll/" ++ job) d w).
Proof.
  intros Hte Hjob Hnet Hdata Hstatus Hs Hq Hf Hconv.
  apply ToString_completes in Hconv. destruct Hconv as [text Htext].
  exists text. split; [exact Htext|].
  rewrite pollQueue_unfold. unfold pollQueue_body, POLL_TIMEOUT.
  destruct (Z.gtb_spec timeElapsed 200000) as [Hgt|_]; [lia|].
  unfold bind, try_catch, Date_now, axios_request.
  rewrite Hjob. cbn [lift ret]. rewrite Hnet, Hdata. cbn [lift ret].
  rewrite Hstatus. cbn [lift ret].
  rewrite !is_string_false by assumption.
  rewrite Htext. reflexivity.
Qed.

Lemma pollQueue_unknown_status_witness :
  exists text,
    ToString (JsString "active") = Normal text
    /\ pollQueue (scripted [(20, poll_reply "active")]) 0
         (JsString "J1") (JsNumber 1000) 0 world0
       = (Returned
            (Failure (JsString "UNEXPECTED_DOCS_POLL_STATUS")
               ("Failed because the polling API returned an unknown status: " ++ text)),
          issued GET "/api/docs/poll/J1" 20 world0).
Proof.
  apply (pollQueue_unknown_status (scripted [(20, poll_reply "active")]) 0
           (JsString "J1") (JsNumber 1000) 0 world0 "J1" 20
           (axios_response 200 (JsObject [("status", JsString "active")]))
           (JsObject [("status", JsString "active")]) (JsString "active"));
    [lia | reflexivity | reflexivity | reflexivity | reflexivity
    | discriminate | discriminate | discriminate | reflexivity].
Defined.

(** C10, as stated, fails: a rejected trigger request whose body names
    [PackageVersionMismatchError] and carries no list of versions makes
    [getPackageDocs] throw; no failure is returned. *)
Lemma getPackageDocs_throws_on_body_without_versions :
  getPackageDocs
    (scripted [(15, Rejected (axios_error
                  (Some (404, JsObject [("name", JsString "PackageVersionMismatchError")]))))])
    0 "left-pad" "9.9.9" false world0
  = (Thrown (TypeError "Cannot read properties of undefined (reading 'join')"),
     issued POST "/api/docs/trigger/left-pad/9.9.9" 15 world0).
Proof. reflexivity. Qed.

Lemma trigger_catch_axios (response : option (Z * JsValue)) (w : World) :
  trigger_catch (axios_error response) w
  = if truthy (body_of response) then
      (message <- getErrorMessage (body_of response) ;;
       ret (Failure (read (body_of response) "name") message)) w
    else (Returned (Failure (JsString "UNEXPECTED_DOCS_TRIGGER_FAILURE") ""), w).
Proof.
  unfold trigger_catch, bind at 1.
  destruct response as [[status data]|]; [|reflexivity].
  cbn [axios_error axios_response get read lookup String.eqb Ascii.eqb Bool.eqb
       lift ret get_opt nullish body_of].
  destruct (truthy data) eqn:Hbody; [|reflexivity].
  unfold bind at 1. rewrite get_not_nullish by (destruct data; discriminate || reflexivity).
  reflexivity.
Qed.

(** C10 (amended): when the trigger request, or the sync-build request, is
    rejected by the transport with a response whose body is truthy, the
    entry point does what [getErrorMessage] does on that body: if it returns
    a message, the result is a failure whose code is the [name] of the body
    as it is (absent when the body has none) with that message; if it
    throws, the entry point throws the same.  With no response, or a body
    that is falsy, the result is the failure
    [UNEXPECTED_DOCS_TRIGGER_FAILURE] with the empty message. *)
Theorem entry_points_on_transport_failure (P : Platform) (fuel : nat)
    (pkg pkgVersion : string) (force : bool) (w : World)
    (d : Z) (response : option (Z * JsValue)) :
  let body := body_of response in
  let described (w' : World) : Outcome PackageDocsResponse * World :=
    if truthy body then
      bind (getErrorMessage body)
        (fun message => ret (Failure (read body "name") message)) w'
    else (Returned (Failure (JsString "UNEXPECTED_DOCS_TRIGGER_FAILURE") ""), w') in
  (let url := request_url "/api/docs/trigger/" pkg pkgVersion force in
   respond P (length (requests w)) POST url = (d, Rejected (axios_error response)) ->
   getPackageDocs P fuel pkg pkgVersion force w = described (issued POST url d w))
  /\
  (let url := request_url "/api/docs/build/" pkg pkgVersion force in
   respond P (length (requests w)) POST url = (d, Rejected (axios_error response)) ->
   getPackageDocsSync P pkg pkgVersion force w = described (issued POST url d w)).
Proof.
  intros body described. split; intros url Hnet.
  - unfold getPackageDocs, try_catch, axios_request. fold url. rewrite Hnet.
    apply trigger_catch_axios.
  - unfold getPackageDocsSync, try_catch, axios_request. fold url. rewrite Hnet.
    apply trigger_catch_axios.
Qed.

Lemma entry_points_on_transport_failure_witness :
  let P := scripted [(15, Rejected (axios_error
                       (Some (404, JsObject [("name", JsString "PackageNotFoundError")]))))] in
  let failure :=
    Failure (JsString "PackageNotFoundError")
      "This package could not be found on the npm registry. Did you get the name right?" in
  getPackageDocs P 0 "left-padd" "" true world0
    = (Returned failure, issued POST "/api/docs/trigger/left-padd?force=true" 15 world0)
  /\ getPackageDocsSync P "left-padd" "" true world0
    = (Returned failure, issued POST "/api/docs/build/left-padd?force=true" 15 world0).
Proof.
  intros P failure.
  destruct (entry_points_on_transport_failure P 0 "left-padd" "" true world0 15
              (Some (404, JsObject [("name", JsString "PackageNotFoundError")])))
    as [Htrigger Hbuild].
  split; [apply Htrigger | apply Hbuild]; reflexivity.
Defined.

(** The fallback of C10, run: the server cannot be reached. *)
Example getPackageDocs_network_down :
  getPackageDocs (scripted []) 0 "left-pad" "1.3.0" false world0
  = (Returned (Failure (JsString "UNEXPECTED_DOCS_TRIGGER_FAILURE") ""),
     issued POST "/api/docs/trigger/left-pad/1.3.0" 0 world0).
Proof. reflexivity. Qed.

(** A trigger that is queued, polled twice, and succeeds. *)
Example getPackageDocs_queued_then_success :
  fst (getPackageDocs
         (scripted [(30, Fulfilled (axios_response 200
                          (JsObject [("status", JsString "queued");
                                     ("jobId", JsString "J1");
                                     ("pollInterval", JsNumber 1000)])));
                    (20, poll_reply "queued"); (20, poll_reply "success")])
         1 "left-pad" "1.3.0" false world0)
  = Returned Success.
Proof. reflexivity. Qed.

End ClientFacts.

(** ** The worker *)

Module WorkerFacts.
Import Worker Scenario.

Lemma lookup_define_same (k : string) (v : JsValue) (props : list (string * JsValue)) :
  lookup k (define k v props) = Some v.
Proof.
  induction props as [|[k' v'] rest IH]; cbn.
  - rewrite String.eqb_refl. reflexivity.
  - destruct (String.eqb k' k) eqn:Hk; cbn; rewrite Hk; [reflexivity | exact IH].
Qed.

Lemma lookup_define_other (k k2 : string) (v : JsValue) (props : list (string * JsValue)) :
  k2 <> k -> lookup k2 (define k v props) = lookup k2 props.
Proof.
  intros Hne. induction props as [|[k' v'] rest IH]; cbn.
  - destruct (String.eqb_spec k k2); [congruence | reflexivity].
  - destruct (String.eqb_spec k' k) as [->|Hk]; cbn.
    + destruct (String.eqb_spec k k2); [congruence | reflexivity].
    + destruct (String.eqb k' k2); [reflexivity | exact IH].
Qed.

(** C6: when the build throws an error, the handler replaces the job's data
    by the data with [originalError] set to the object made of [code], the
    message of the thrown error, [stacktrace], the stack of its
    [originalError], and [message], the message of its [originalError]
    (both absent when the error wraps none); every other property of the
    data is as the build left it; and the handler throws the same error. *)
Theorem handler_records_error_and_rethrows
    (generateDocsForPackage : JsValue -> JsValue -> Job -> Completion JsValue * Job)
    (now : Z) (job job' : Job) (p : Process) (err : JsValue) :
  nullish err = false ->
  generateDocsForPackage
    (read (JsObject (data job)) "packageJSON")
    (JsObject [("force", read (JsObject (data job)) "force")]) job
  = (Throw err, job') ->
  exists job'',
    handler generateDocsForPackage now job p = (Throw err, job'', refresh now p)
    /\ lookup "originalError" (data job'')
       = Some (JsObject
                 [("code", read err "message");
                  ("stacktrace", get_opt (get_opt err "originalError") "stack");
                  ("message", get_opt (get_opt err "originalError") "message")])
    /\ (forall k, k <> "originalError" -> lookup k (data job'') = lookup k (data job')).
Proof.
  intros Herr Hbuild. unfold handler. rewrite Hbuild. unfold handler_catch.
  assert (Hmsg : get err "message" = Normal (read err "message"))
    by (destruct err; discriminate || reflexivity).
  rewrite Hmsg. eexists. split; [reflexivity|]. cbn [updateData data]. split.
  - apply lookup_define_same.
  - intros k Hk. apply lookup_define_other. exact Hk.
Qed.

Lemma handler_records_error_and_rethrows_witness :
  exists job'',
    handler failing_build 1700000000000 job0 (load 1699999990000)
    = (Throw typedoc_failure, job'', refresh 1700000000000 (load 1699999990000))
    /\ lookup "originalError" (data job'')
       = Some (JsObject
                 [("code", read typedoc_failure "message");
                  ("stacktrace", get_opt (get_opt typedoc_failure "originalError") "stack");
                  ("message", get_opt (get_opt typedoc_failure "originalError") "message")])
    /\ (forall k, k <> "originalError" -> lookup k (data job'') = lookup k (data job0)).
Proof.
  apply (handler_records_error_and_rethrows failing_build 1700000000000 job0 job0
           (load 1699999990000) typedoc_failure); reflexivity.
Defined.

(** The job record of the scenario after the handler ran. *)
Example handler_failing_build_run :
  handler failing_build 1700000000000 job0 (load 1699999990000)
  = (Throw typedoc_failure,
     {| data :=
          [("packageJSON", JsObject [("name", JsString "left-pad");
                                     ("version", JsString "1.3.0")]);
           ("force", JsBool false);
           ("originalError",
            JsObject [("code", JsString "TypeDocBuildError");
                      ("stacktrace", JsString "SyntaxError: Unexpected token at parse");
                      ("message", JsString "Unexpected token")])] |},
     {| workerActiveTime := 1700000000000; exit_code := None; stdout := [] |}).
Proof. reflexivity. Qed.

Lemma run_snoc (p : Process) (evs : list Event) (ev : Event) :
  run p (evs ++ [ev]) = step (run p evs) ev.
Proof. unfold run. rewrite fold_left_app. reflexivity. Qed.

Lemma last_job_start_snoc (evs : list Event) (ev : Event) :
  last_job_start (evs ++ [ev])
  = match ev with
    | JobStarts now => Some now
    | Tick _ => last_job_start evs
    end.
Proof.
  induction evs as [|e rest IH]; cbn.
  - destruct ev; reflexivity.
  - rewrite IH. destruct ev; [|reflexivity].
    destruct (last_job_start rest); reflexivity.
Qed.

(** In a process that is running, [workerActiveTime] is the time the last
    job attempt started, and the time the module was loaded when none has. *)
Lemma workerActiveTime_is_last_job_start (loaded : Z) (evs : list Event) :
  exit_code (run (load loaded) evs) = None ->
  workerActiveTime (run (load loaded) evs)
  = match last_job_start evs with
    | Some t => t
    | None => loaded
    end.
Proof.
  induction evs as [|ev evs IH] using rev_ind; [reflexivity|].
  rewrite run_snoc, last_job_start_snoc. unfold step.
  destruct (exit_code (run (load loaded) evs)) eqn:Halive.
  - rewrite Halive. discriminate.
  - destruct ev as [now|now].
    + unfold watchdog.
      destruct (now - workerActiveTime (run (load loaded) evs) >? idle_threshold).
      * discriminate.
      * intros _. apply IH. reflexivity.
    + reflexivity.
Qed.

Lemma handler_refreshes
    (generateDocsForPackage : JsValue -> JsValue -> Job -> Completion JsValue * Job)
    (now : Z) (job : Job) (p : Process) :
  snd (handler generateDocsForPackage now job p) = refresh now p.
Proof.
  unfold handler.
  destruct (generateDocsForPackage _ _ job) as [[docs|err] job']; [reflexivity|].
  destruct (handler_catch err job'); reflexivity.
Qed.

(** C7: in a running worker whose last job attempt started at [t], a tick
    of the watchdog at [now] exits the process (with code 1) when
    [now - t] is more than five minutes, and changes nothing when it is at
    most five minutes; and whatever the build does, the handler invoked at
    [now'] leaves the process with [workerActiveTime = now'], as the start
    of a job attempt does. *)
Theorem watchdog_exits_iff_idle
    (generateDocsForPackage : JsValue -> JsValue -> Job -> Completion JsValue * Job)
    (loaded : Z) (evs : list Event) (t now : Z) :
  let p := run (load loaded) evs in
  exit_code p = None ->
  last_job_start evs = Some t ->
  (1000 * 60 * 5 < now - t -> exit_code (step p (Tick now)) = Some 1)
  /\ (now - t <= 1000 * 60 * 5 -> step p (Tick now) = p)
  /\ (forall now' job,
         snd (handler generateDocsForPackage now' job p) = step p (JobStarts now')
         /\ workerActiveTime (snd (handler generateDocsForPackage now' job p)) = now').
Proof.
  intros p Halive Hlast.
  assert (Hactive : workerActiveTime p = t).
  { subst p. rewrite workerActiveTime_is_last_job_start by exact Halive.
    rewrite Hlast. reflexivity. }
  unfold step. rewrite Halive. unfold watchdog, idle_threshold. rewrite Hactive.
  repeat split.
  - intros Hidle. apply Z.gtb_lt in Hidle. rewrite Hidle. reflexivity.
  - intros Hbusy. destruct (Z.gtb_spec (now - t) (1000 * 60 * 5)); [lia | reflexivity].
  - apply handler_refreshes.
  - rewrite handler_refreshes. reflexivity.
Qed.

Lemma watchdog_exits_iff_idle_witness :
  let p := run (load 0) [JobStarts 1000; Tick 2000] in
  exit_code (step p (Tick 301001)) = Some 1
  /\ step p (Tick 301000) = p
  /\ workerActiveTime (snd (handler failing_build 5000 job0 p)) = 5000.
Proof.
  intros p.
  destruct (watchdog_exits_iff_idle failing_build 0 [JobStarts 1000; Tick 2000]
              1000 301001 eq_refl eq_refl) as (Hexit & _ & Hjob).
  destruct (watchdog_exits_iff_idle failing_build 0 [JobStarts 1000; Tick 2000]
              1000 301000 eq_refl eq_refl) as (_ & Hstay & _).
  split; [apply Hexit; lia | split; [apply Hstay; lia | apply Hjob]].
Defined.

(** Before any job, the time is counted from the loading of the module. *)
Example watchdog_before_first_job :
  exit_code (run (load 0) [Tick 300000; Tick 300001]) = Some 1
  /\ exit_code (run (load 0) [Tick 300000]) = None.
Proof. split; reflexivity. Qed.

End WorkerFacts.

(** ** The poll loop as a whole *)

Module PollFacts.
Import Client Scenario Protocol.
Local Open Scope js_scope.

Lemma pollQueue_eq (P : Platform) (fuel : nat) (jobId pollInterval : JsValue)
    (timeElapsed : Z) :
  pollQueue P fuel jobId pollInterval timeElapsed =
  pollQueue_body P
    (fun elapsed =>
       match fuel with
       | O => pending
       | S fuel' => pollQueue P fuel' jobId pollInterval elapsed
       end)
    jobId pollInterval timeElapsed.
Proof. destruct fuel; reflexivity. Qed.

Lemma is_string_other (v : JsValue) (lit : string) :
  v <> JsString lit -> is_string v lit = false.
Proof.
  destruct v; try reflexivity. cbn. intros H.
  destruct (String.eqb_spec s lit); [congruence | reflexivity].
Qed.

Lemma is_string_true (v : JsValue) (lit : string) :
  is_string v lit = true -> v = JsString lit.
Proof.
  destruct v; try discriminate. cbn. intros H.
  apply String.eqb_eq in H. congruence.
Qed.

(** What [getErrorMessage] does to the world: nothing, or one warning that
    carries the error; and it always completes. *)
Lemma getErrorMessage_effect (error : JsValue) (w : World) :
  exists r w',
    getErrorMessage error w = (r, w')
    /\ r <> Pending
    /\ (w' = w
        \/ w' = warned [JsString "Could not get error message for error: "; error] w).
Proof.
  unfold getErrorMessage, bind.
  destruct (get error "name") as [name|e]; cbn [lift ret throw];
    [|do 2 eexists; split; [reflexivity | split; [discriminate | left; reflexivity]]].
  destruct (is_string name PackageNotFoundError);
    [do 2 eexists; split; [reflexivity | split; [discriminate | left; reflexivity]]|].
  destruct (is_string name PackageVersionMismatchError).
  { destruct (get error "extra") as [extra|e]; cbn [lift ret throw];
      [|do 2 eexists; split; [reflexivity | split; [discriminate | left; reflexivity]]].
    destruct (call_join extra ", ") as [joined|e]; cbn [lift ret throw];
      do 2 eexists; split; try reflexivity; split; try discriminate; left; reflexivity. }
  destruct (is_string name TypeDefinitionResolveError);
    [do 2 eexists; split; [reflexivity | split; [discriminate | left; reflexivity]]|].
  destruct (is_string name TypeDocBuildError).
  { destruct (get error "extra") as [extra|e]; cbn [lift ret throw];
      [|do 2 eexists; split; [reflexivity | split; [discriminate | left; reflexivity]]].
    destruct (ToString extra) as [text|e]; cbn [lift ret throw];
      [|do 2 eexists; split; [reflexivity | split; [discriminate | left; reflexivity]]].
    destruct (get error "errorStack") as [stack|e]; cbn [lift ret throw];
      [|do 2 eexists; split; [reflexivity | split; [discriminate | left; reflexivity]]].
    destruct (ToString stack) as [stack_text|e]; cbn [lift ret throw];
      do 2 eexists; split; try reflexivity; split; try discriminate; left; reflexivity. }
  do 2 eexists. split; [reflexivity|]. split; [discriminate | right; reflexivity].
Qed.

(** The [catch] block of [pollQueue] leaves the world alone and always
    completes. *)
Lemma pollQueue_catch_effect (P : Platform) (err : JsValue) (w : World) :
  exists r, pollQueue_catch P err w = (r, w) /\ r <> Pending.
Proof.
  unfold pollQueue_catch, bind.
  destruct (get err "response") as [response|e]; cbn [lift ret throw];
    [|eexists; split; [reflexivity | discriminate]].
  destruct (truthy response); cbn [ret];
    [|eexists; split; [reflexivity | discriminate]].
  destruct (get response "status") as [status|e]; cbn [lift ret throw];
    [|eexists; split; [reflexivity | discriminate]].
  destruct (is_number status 404); cbn [ret];
    [eexists; split; [reflexivity | discriminate]|].
  destruct (ToString status) as [text|e]; cbn [lift ret throw];
    [|eexists; split; [reflexivity | discriminate]].
  destruct (get response "data") as [data|e]; cbn [lift ret throw];
    eexists; split; try reflexivity; discriminate.
Qed.

(** One round that observes [queued]. *)
Lemma round_queued (P : Platform) (self : Z -> M PackageDocsResponse)
    (jobId pollInterval : JsValue) (timeElapsed : Z) (w : World)
    (job : string) (d : Z) (response data : JsValue) :
  timeElapsed <= 200000 ->
  ToString jobId = Normal job ->
  respond P (length (requests w)) GET (poll_url job) = (d, Fulfilled response) ->
  get response "data" = Normal data ->
  get data "status" = Normal (JsString "queued") ->
  pollQueue_body P self jobId pollInterval timeElapsed w
  = self (timeElapsed + (d + timer_fires P (length (timers w)) pollInterval))
      (slept pollInterval (timer_fires P (length (timers w)) pollInterval)
         (issued GET (poll_url job) d w)).
Proof.
  intros Hte Hjob Hnet Hdata Hstatus. unfold poll_url in *.
  unfold pollQueue_body, POLL_TIMEOUT.
  destruct (Z.gtb_spec timeElapsed 200000) as [Hgt|_]; [lia|].
  unfold bind, try_catch, Date_now, axios_request at 1.
  rewrite Hjob. cbn [lift ret]. rewrite Hnet, Hdata. cbn [lift ret].
  rewrite Hstatus. cbn [lift ret is_string String.eqb Ascii.eqb Bool.eqb].
  unfold sleep. cbn [timers issued requests now slept].
  f_equal. lia.
Qed.

(** One round that observes [success]. *)
Lemma round_success (P : Platform) (self : Z -> M PackageDocsResponse)
    (jobId pollInterval : JsValue) (timeElapsed : Z) (w : World)
    (job : string) (d : Z) (response data : JsValue) :
  timeElapsed <= 200000 ->
  ToString jobId = Normal job ->
  respond P (length (requests w)) GET (poll_url job) = (d, Fulfilled response) ->
  get response "data" = Normal data ->
  get data "status" = Normal (JsString "success") ->
  pollQueue_body P self jobId pollInterval timeElapsed w
  = (Returned Success, issued GET (poll_url job) d w).
Proof.
  intros Hte Hjob Hnet Hdata Hstatus. unfold poll_url in *.
  unfold pollQueue_body, POLL_TIMEOUT.
  destruct (Z.gtb_spec timeElapsed 200000) as [Hgt|_]; [lia|].
  unfold bind, try_catch, Date_now, axios_request at 1.
  rewrite Hjob. cbn [lift ret]. rewrite Hnet, Hdata. cbn [lift ret].
  rewrite Hstatus. reflexivity.
Qed.

Local Ltac ends :=
  right; do 2 eexists; split; [reflexivity | split; [discriminate | auto]].

(** A round within the budget either goes on to the next one, after a query
    and a sleep, or ends the loop after the query alone. *)
Lemma round_cases (P : Platform) (self : Z -> M PackageDocsResponse)
    (jobId pollInterval : JsValue) (timeElapsed : Z) (w : World) (job : string) :
  timeElapsed <= 200000 ->
  ToString jobId = Normal job ->
  let d := fst (respond P (length (requests w)) GET (poll_url job)) in
  let nap := timer_fires P (length (timers w)) pollInterval in
  let w1 := issued GET (poll_url job) d w in
  pollQueue_body P self jobId pollInterval timeElapsed w
    = self (timeElapsed + (d + nap)) (slept pollInterval nap w1)
  \/ exists r w',
       pollQueue_body P self jobId pollInterval timeElapsed w = (r, w')
       /\ r <> Pending
       /\ requests w' = requests w1 /\ timers w' = timers w1.
Proof.
  intros Hte Hjob d nap w1. subst d nap w1. unfold poll_url.
  unfold pollQueue_body, POLL_TIMEOUT.
  destruct (Z.gtb_spec timeElapsed 200000) as [Hgt|_]; [lia|].
  unfold bind, try_catch, Date_now, axios_request, sleep.
  rewrite Hjob. cbn [lift ret].
  destruct (respond P (length (requests w)) GET ("/api/docs/poll/" ++ job))
    as [d [response|err]]; cbn [fst].
  2:{ right.
      destruct (pollQueue_catch_effect P err (issued GET ("/api/docs/poll/" ++ job) d w))
        as (r & Hr & Hp).
      exists r, (issued GET ("/api/docs/poll/" ++ job) d w). rewrite Hr. auto. }
  destruct (get response "data") as [data|e]; cbn [lift ret throw]; [|ends].
  destruct (get data "status") as [status|e]; cbn [lift ret throw]; [|ends].
  destruct (is_string status "success"); [ends|].
  destruct (is_string status "queued").
  { left. cbn [timers issued requests now slept]. f_equal. lia. }
  destruct (is_string status "failed").
  { destruct (get data "errorCode") as [errorCode|e]; cbn [lift ret throw]; [|ends].
    destruct (get data "errorMessage") as [errorMessage|e]; cbn [lift ret throw]; [|ends].
    destruct (get data "errorStack") as [errorStack|e]; cbn [lift ret throw]; [|ends].
    destruct (getErrorMessage_effect
                (JsObject [("name", errorCode); ("extra", errorMessage);
                           ("errorStack", errorStack)])
                (issued GET ("/api/docs/poll/" ++ job) d w))
      as (r & w' & Hr & Hp & Hw).
    rewrite Hr.
    assert (Hsame : requests w' = requests (issued GET ("/api/docs/poll/" ++ job) d w)
                    /\ timers w' = timers (issued GET ("/api/docs/poll/" ++ job) d w))
      by (destruct Hw as [->| ->]; split; reflexivity).
    right.
    destruct r as [message|e|]; [| |congruence];
      do 2 eexists; (split; [reflexivity | split; [discriminate | exact Hsame]]). }
  destruct (ToString status) as [text|e]; cbn [lift ret throw]; ends.
Qed.

(** A job id that does not convert to a string: the [catch] block runs on
    the world as it was. *)
Lemma round_unconvertible (P : Platform) (self : Z -> M PackageDocsResponse)
    (jobId pollInterval : JsValue) (timeElapsed : Z) (w : World) (e : JsValue) :
  timeElapsed <= 200000 ->
  ToString jobId = Throw e ->
  pollQueue_body P self jobId pollInterval timeElapsed w = pollQueue_catch P e w.
Proof.
  intros Hte Hjob. unfold pollQueue_body, POLL_TIMEOUT.
  destruct (Z.gtb_spec timeElapsed 200000) as [Hgt|_]; [lia|].
  unfold bind at 1, try_catch, Date_now, bind at 1. rewrite Hjob. reflexivity.
Qed.

Lemma round_over_budget (P : Platform) (self : Z -> M PackageDocsResponse)
    (jobId pollInterval : JsValue) (timeElapsed : Z) (w : World) :
  200000 < timeElapsed ->
  pollQueue_body P self jobId pollInterval timeElapsed w = (Returned timed_out, w).
Proof.
  intros H. unfold pollQueue_body, POLL_TIMEOUT.
  apply Z.gtb_lt in H. rewrite H. reflexivity.
Qed.

Lemma issued_requests (m : Method) (url : string) (d : Z) (w : World) :
  length (requests (issued m url d w)) = S (length (requests w)).
Proof. cbn. rewrite length_app. cbn. lia. Qed.

Lemma slept_timers (ms : JsValue) (d : Z) (w : World) :
  length (timers (slept ms d w)) = S (length (timers w)).
Proof. cbn. rewrite length_app. cbn. lia. Qed.

Lemma snoc_repeat {A} (l : list A) (x : A) (n : nat) :
  ((l ++ [x]) ++ repeat x n = l ++ repeat x (S n))%list.
Proof. rewrite <- app_assoc. reflexivity. Qed.

(** [n] rounds that observe [queued], each of at most [c] ms, and then one
    that observes [success], all within the budget. *)
Lemma rounds_then_success (P : Platform) (n : nat) :
  forall (fuel : nat) (jobId pollInterval : JsValue) (job : string)
         (timeElapsed : Z) (w : World) (c : Z),
    (n <= fuel)%nat ->
    ToString jobId = Normal job ->
    0 <= c ->
    timeElapsed + Z.of_nat n * c <= 200000 ->
    (forall i, (i < n)%nat ->
       answers P (length (requests w) + i) job "queued"
       /\ round_at_most P (length (requests w) + i) (length (timers w) + i)
            job pollInterval c) ->
    answers P (length (requests w) + n) job "success" ->
    exists w',
      pollQueue P fuel jobId pollInterval timeElapsed w = (Returned Success, w')
      /\ requests w' = (requests w ++ repeat (GET, poll_url job) (S n))%list
      /\ timers w' = (timers w ++ repeat pollInterval n)%list.
Proof.
  induction n as [|n IH]; intros fuel jobId pollInterval job te w c
    Hfuel Hjob Hc Hbudget Hqueued Hsuccess.
  - rewrite Nat.add_0_r in Hsuccess.
    destruct Hsuccess as (d & response & data & Hnet & Hdata & Hstatus).
    assert (Hte : te <= 200000) by lia.
    eexists. rewrite pollQueue_eq.
    rewrite (round_success P _ jobId pollInterval te w job d response data
               Hte Hjob Hnet Hdata Hstatus).
    split; [reflexivity|]. split; [reflexivity|].
    cbn. rewrite app_nil_r. reflexivity.
  - destruct fuel as [|fuel]; [lia|].
    destruct (Hqueued O ltac:(lia)) as [Hq Hmost].
    rewrite !Nat.add_0_r in Hq, Hmost.
    destruct Hq as (d & response & data & Hnet & Hdata & Hstatus).
    unfold round_at_most in Hmost. rewrite Hnet in Hmost. cbn [fst] in Hmost.
    rewrite Nat2Z.inj_succ, Z.mul_succ_l in Hbudget.
    assert (Hrest : 0 <= Z.of_nat n * c) by (apply Z.mul_nonneg_nonneg; lia).
    rewrite Nat.add_0_r in Hmost.
    assert (Hte : te <= 200000) by lia.
    rewrite pollQueue_eq.
    rewrite (round_queued P _ jobId pollInterval te w job d response data
               Hte Hjob Hnet Hdata Hstatus).
    set (nap := timer_fires P (length (timers w)) pollInterval) in *.
    destruct (IH fuel jobId pollInterval job (te + (d + nap))
                (slept pollInterval nap (issued GET (poll_url job) d w)) c)
      as (w' & Hrun & Hreq & Htim).
    + lia.
    + exact Hjob.
    + exact Hc.
    + subst nap. lia.
    + intros i Hi.
      replace (length (requests (slept pollInterval nap (issued GET (poll_url job) d w))) + i)%nat
        with (length (requests w) + S i)%nat by (cbn; rewrite length_app; cbn; lia).
      replace (length (timers (slept pollInterval nap (issued GET (poll_url job) d w))) + i)%nat
        with (length (timers w) + S i)%nat by (cbn; rewrite length_app; cbn; lia).
      apply Hqueued. lia.
    + replace (length (requests (slept pollInterval nap (issued GET (poll_url job) d w))) + n)%nat
        with (length (requests w) + S n)%nat by (cbn; rewrite length_app; cbn; lia).
      exact Hsuccess.
    + exists w'. split; [exact Hrun|]. split.
      * rewrite Hreq. cbn [slept issued requests]. apply snoc_repeat.
      * rewrite Htim. cbn [slept issued timers]. apply snoc_repeat.
Qed.

(** X1: a job that is reported [queued] [n] times and then [success] is
    reported as a success, after [n + 1] status queries of its URL and [n]
    sleeps, provided the rounds fit the budget; [n] recursive calls are
    enough. *)
Theorem pollQueue_queued_then_success (P : Platform) (n fuel : nat)
    (jobId pollInterval : JsValue) (job : string) (timeElapsed : Z) (w : World)
    (c : Z) :
  (n <= fuel)%nat ->
  ToString jobId = Normal job ->
  0 <= c ->
  timeElapsed + Z.of_nat n * c <= 200000 ->
  (forall i, (i < n)%nat ->
     answers P (length (requests w) + i) job "queued"
     /\ round_at_most P (length (requests w) + i) (length (timers w) + i)
          job pollInterval c) ->
  answers P (length (requests w) + n) job "success" ->
  exists w',
    pollQueue P fuel jobId pollInterval timeElapsed w = (Returned Success, w')
    /\ requests w' = (requests w ++ repeat (GET, poll_url job) (S n))%list
    /\ timers w' = (timers w ++ repeat pollInterval n)%list.
Proof. apply rounds_then_success. Qed.

Local Ltac answered := do 3 eexists; repeat split; reflexivity.

Lemma pollQueue_queued_then_success_witness :
  exists w',
    pollQueue
      (scripted [(40, poll_reply "queued"); (40, poll_reply "queued");
                 (30, poll_reply "success")])
      2 (JsString "J1") (JsNumber 1000) 0 world0
    = (Returned Success, w')
    /\ requests w' = (requests world0 ++ repeat (GET, poll_url "J1") 3)%list
    /\ timers w' = (timers world0 ++ repeat (JsNumber 1000) 2)%list.
Proof.
  apply (pollQueue_queued_then_success
           (scripted [(40, poll_reply "queued"); (40, poll_reply "queued");
                      (30, poll_reply "success")])
           2 2 (JsString "J1") (JsNumber 1000) "J1" 0 world0 1040).
  - lia.
  - reflexivity.
  - lia.
  - lia.
  - intros i Hi. destruct i as [|[|i]]; [| |lia];
      (split; [answered | unfold round_at_most; cbn; lia]).
  - answered.
Defined.

(** X2: if every round of polling (a status query and the sleep after it)
    takes at least [c > 0] ms, [pollQueue] settles, by returning or by
    throwing, within [fuel] recursive calls as soon as
    [timeElapsed + fuel * c] is over the budget, and it has then issued at
    most [fuel] status queries. *)
Theorem pollQueue_settles (P : Platform) (fuel : nat)
    (jobId pollInterval : JsValue) (timeElapsed : Z) (w : World) (c : Z) :
  0 < c ->
  (forall job, ToString jobId = Normal job -> round_at_least P job pollInterval c) ->
  200000 < timeElapsed + Z.of_nat fuel * c ->
  exists r w',
    pollQueue P fuel jobId pollInterval timeElapsed w = (r, w')
    /\ r <> Pending
    /\ (length (requests w') <= length (requests w) + fuel)%nat.
Proof.
  intros Hc Hround. revert timeElapsed w.
  induction fuel as [|fuel IH]; intros te w Hover; rewrite pollQueue_eq.
  - rewrite round_over_budget by lia.
    do 2 eexists. split; [reflexivity|]. split; [discriminate | lia].
  - destruct (Z.lt_ge_cases 200000 te) as [Hgt|Hle].
    { rewrite round_over_budget by lia.
      do 2 eexists. split; [reflexivity|]. split; [discriminate | lia]. }
    destruct (ToString jobId) as [job|e] eqn:Hjob.
    2:{ rewrite (round_unconvertible P _ jobId pollInterval te w e Hle Hjob).
        destruct (pollQueue_catch_effect P e w) as (r & Hr & Hp).
        exists r, w. rewrite Hr. split; [reflexivity|]. split; [exact Hp | lia]. }
    destruct (round_cases P
                (fun elapsed => pollQueue P fuel jobId pollInterval elapsed)
                jobId pollInterval te w job Hle Hjob) as [Hnext|(r & w' & Hr & Hp & Hreq & _)].
    + rewrite Hnext.
      specialize (Hround job eq_refl (length (requests w)) (length (timers w))).
      set (d := fst (respond P (length (requests w)) GET (poll_url job))) in *.
      set (nap := timer_fires P (length (timers w)) pollInterval) in *.
      destruct (IH (te + (d + nap))
                  (slept pollInterval nap (issued GET (poll_url job) d w)))
        as (r & w' & Hr & Hp & Hreq).
      { rewrite Nat2Z.inj_succ, Z.mul_succ_l in Hover. lia. }
      exists r, w'. split; [exact Hr|]. split; [exact Hp|].
      cbn [slept requests] in Hreq. rewrite issued_requests in Hreq. lia.
    + exists r, w'. split; [exact Hr|]. split; [exact Hp|].
      rewrite Hreq, issued_requests. lia.
Qed.

Lemma always_queued_rounds (job : string) (n : Z) :
  round_at_least always_queued job (JsNumber n) (50 + Z.max 0 n).
Proof. intros k k'. cbn. lia. Qed.

Lemma pollQueue_settles_witness :
  exists r w',
    pollQueue always_queued 200 (JsString "J1") (JsNumber 1000) 0 world0 = (r, w')
    /\ r <> Pending
    /\ (length (requests w') <= length (requests world0) + 200)%nat.
Proof.
  apply (pollQueue_settles always_queued 200 (JsString "J1") (JsNumber 1000) 0
           world0 1050).
  - lia.
  - intros job _. apply (always_queued_rounds job 1000).
  - lia.
Defined.

(** X3: a job that is reported [queued] at every status query ends in the
    failure [DocsBuildTimeout], as soon as the recursive calls allowed cover
    the budget at [c > 0] ms a round. *)
Theorem pollQueue_always_queued_times_out (P : Platform) (fuel : nat)
    (jobId pollInterval : JsValue) (job : string) (timeElapsed : Z) (w : World)
    (c : Z) :
  0 < c ->
  ToString jobId = Normal job ->
  (forall k, answers P k job "queued") ->
  round_at_least P job pollInterval c ->
  200000 < timeElapsed + Z.of_nat fuel * c ->
  exists w', pollQueue P fuel jobId pollInterval timeElapsed w = (Returned timed_out, w').
Proof.
  intros Hc Hjob Hqueued Hround. revert timeElapsed w.
  induction fuel as [|fuel IH]; intros te w Hover; rewrite pollQueue_eq.
  - rewrite round_over_budget by lia. eauto.
  - destruct (Z.lt_ge_cases 200000 te) as [Hgt|Hle].
    { rewrite round_over_budget by lia. eauto. }
    destruct (Hqueued (length (requests w))) as (d & response & data & Hnet & Hdata & Hstatus).
    rewrite (round_queued P _ jobId pollInterval te w job d response data
               Hle Hjob Hnet Hdata Hstatus).
    apply IH.
    specialize (Hround (length (requests w)) (length (timers w))).
    rewrite Hnet in Hround. cbn [fst] in Hround.
    rewrite Nat2Z.inj_succ, Z.mul_succ_l in Hover. lia.
Qed.

Lemma pollQueue_always_queued_times_out_witness :
  exists w',
    pollQueue always_queued 200 (JsString "J1") (JsNumber 1000) 0 world0
    = (Returned timed_out, w').
Proof.
  apply (pollQueue_always_queued_times_out always_queued 200 (JsString "J1")
           (JsNumber 1000) "J1" 0 world0 1050).
  - lia.
  - reflexivity.
  - intros k. answered.
  - apply (always_queued_rounds "J1" 1000).
  - lia.
Defined.

(** X4: whatever the server answers, [pollQueue] only ever issues status
    queries for its own job, sets timers only for its poll interval, and
    never more timers than queries nor more queries than the recursive calls
    allowed plus one. *)
Theorem pollQueue_polls_only_its_job (P : Platform) (fuel : nat)
    (jobId pollInterval : JsValue) (job : string) (timeElapsed : Z) (w : World) :
  ToString jobId = Normal job ->
  let w' := snd (pollQueue P fuel jobId pollInterval timeElapsed w) in
  exists k j,
    requests w' = (requests w ++ repeat (GET, poll_url job) k)%list
    /\ timers w' = (timers w ++ repeat pollInterval j)%list
    /\ (j <= k <= S fuel)%nat.
Proof.
  intros Hjob. revert timeElapsed w.
  induction fuel as [|fuel IH]; intros te w; cbv zeta; rewrite pollQueue_eq.
  - destruct (Z.lt_ge_cases 200000 te) as [Hgt|Hle].
    { rewrite round_over_budget by lia.
      exists O, O. cbn. rewrite !app_nil_r. repeat split; lia. }
    destruct (round_cases P (fun _ => pending) jobId pollInterval te w job Hle Hjob)
      as [Hnext|(r & w' & Hr & _ & Hreq & Htim)].
    + rewrite Hnext. exists 1%nat, 1%nat. cbn. repeat split; lia.
    + rewrite Hr. exists 1%nat, O. cbn [snd]. rewrite Hreq, Htim.
      cbn. rewrite app_nil_r. repeat split; lia.
  - destruct (Z.lt_ge_cases 200000 te) as [Hgt|Hle].
    { rewrite round_over_budget by lia.
      exists O, O. cbn. rewrite !app_nil_r. repeat split; lia. }
    destruct (round_cases P
                (fun elapsed => pollQueue P fuel jobId pollInterval elapsed)
                jobId pollInterval te w job Hle Hjob)
      as [Hnext|(r & w' & Hr & _ & Hreq & Htim)].
    + rewrite Hnext.
      set (d := fst (respond P (length (requests w)) GET (poll_url job))).
      set (nap := timer_fires P (length (timers w)) pollInterval).
      destruct (IH (te + (d + nap))
                  (slept pollInterval nap (issued GET (poll_url job) d w)))
        as (k & j & Hk & Hj & Hle').
      exists (S k), (S j). rewrite Hk, Hj. cbn [slept issued requests timers].
      rewrite !snoc_repeat. repeat split; lia.
    + rewrite Hr. exists 1%nat, O. cbn [snd]. rewrite Hreq, Htim.
      cbn. rewrite app_nil_r. repeat split; lia.
Qed.

Lemma pollQueue_polls_only_its_job_witness :
  let w' := snd (pollQueue always_queued 3 (JsString "J1") (JsNumber 1000) 0 world0) in
  exists k j,
    requests w' = (requests world0 ++ repeat (GET, poll_url "J1") k)%list
    /\ timers w' = (timers world0 ++ repeat (JsNumber 1000) j)%list
    /\ (j <= k <= 4)%nat.
Proof.
  apply (pollQueue_polls_only_its_job always_queued 3 (JsString "J1")
           (JsNumber 1000) "J1" 0 world0).
  reflexivity.
Defined.

Lemma get_defined (v : JsValue) (k : string) (x : JsValue) :
  get v k = Normal x -> forall k', get v k' = Normal (read v k').
Proof. destruct v; try discriminate; reflexivity. Qed.

(** X5: when the status query is answered with the status [failed],
    [pollQueue] does what [getErrorMessage] does on the error made of the
    body's [errorCode], [errorMessage] and [errorStack]: the failure carries
    the [errorCode] as it is and the message returned, and an exception of
    [getErrorMessage] is an exception of [pollQueue]. *)
Theorem pollQueue_failed_status (P : Platform) (fuel : nat)
    (jobId pollInterval : JsValue) (job : string) (timeElapsed : Z) (w : World)
    (d : Z) (response data : JsValue) :
  timeElapsed <= 200000 ->
  ToString jobId = Normal job ->
  respond P (length (requests w)) GET (poll_url job) = (d, Fulfilled response) ->
  get response "data" = Normal data ->
  get data "status" = Normal (JsString "failed") ->
  pollQueue P fuel jobId pollInterval timeElapsed w
  = bind
      (getErrorMessage
         (JsObject [("name", read data "errorCode");
                    ("extra", read data "errorMessage");
                    ("errorStack", read data "errorStack")]))
      (fun message => ret (Failure (read data "errorCode") message))
      (issued GET (poll_url job) d w).
Proof.
  intros Hte Hjob Hnet Hdata Hstatus. unfold poll_url in *.
  rewrite pollQueue_eq. unfold pollQueue_body, POLL_TIMEOUT.
  destruct (Z.gtb_spec timeElapsed 200000) as [Hgt|_]; [lia|].
  unfold bind at 1, try_catch, Date_now, bind at 1, axios_request.
  rewrite Hjob. cbn [lift ret]. rewrite Hnet.
  unfold bind at 1. rewrite Hdata. cbn [lift ret].
  unfold bind at 1. rewrite Hstatus. cbn [lift ret is_string String.eqb Ascii.eqb Bool.eqb].
  unfold bind at 1. rewrite (get_defined _ _ _ Hstatus "errorCode"). cbn [lift ret].
  unfold bind at 1. rewrite (get_defined _ _ _ Hstatus "errorMessage"). cbn [lift ret].
  unfold bind at 1. rewrite (get_defined _ _ _ Hstatus "errorStack"). cbn [lift ret].
  reflexivity.
Qed.

Lemma pollQueue_failed_status_witness :
  pollQueue
    (scripted [(25, Fulfilled (axios_response 200
                      (JsObject [("status", JsString "failed");
                                 ("errorCode", JsString "PackageNotFoundError")])))])
    0 (JsString "J1") (JsNumber 1000) 0 world0
  = (Returned
       (Failure (JsString "PackageNotFoundError")
          "This package could not be found on the npm registry. Did you get the name right?"),
     issued GET (poll_url "J1") 25 world0).
Proof.
  apply (pollQueue_failed_status
           (scripted [(25, Fulfilled (axios_response 200
                             (JsObject [("status", JsString "failed");
                                        ("errorCode", JsString "PackageNotFoundError")])))])
           0 (JsString "J1") (JsNumber 1000) "J1" 0 world0 25
           (axios_response 200
              (JsObject [("status", JsString "failed");
                         ("errorCode", JsString "PackageNotFoundError")]))
           (JsObject [("status", JsString "failed");
                      ("errorCode", JsString "PackageNotFoundError")]));
    [lia | reflexivity | reflexivity | reflexivity | reflexivity].
Defined.

(** X6: a status query that is answered with no body to read, [null] or
    absent, makes [pollQueue] throw: the status is read outside the [try]
    block, so the [TypeError] is not turned into a failure. *)
Theorem pollQueue_throws_on_missing_body (P : Platform) (fuel : nat)
    (jobId pollInterval : JsValue) (job : string) (timeElapsed : Z) (w : World)
    (d : Z) (response data : JsValue) :
  timeElapsed <= 200000 ->
  ToString jobId = Normal job ->
  respond P (length (requests w)) GET (poll_url job) = (d, Fulfilled response) ->
  get response "data" = Normal data ->
  nullish data = true ->
  exists e,
    get data "status" = Throw e
    /\ pollQueue P fuel jobId pollInterval timeElapsed w
       = (Thrown e, issued GET (poll_url job) d w).
Proof.
  intros Hte Hjob Hnet Hdata Hnull. unfold poll_url in *.
  assert (Hthrow : exists e, get data "status" = Throw e)
    by (destruct data; try discriminate; eexists; reflexivity).
  destruct Hthrow as [e He]. exists e. split; [exact He|].
  rewrite pollQueue_eq. unfold pollQueue_body, POLL_TIMEOUT.
  destruct (Z.gtb_spec timeElapsed 200000) as [Hgt|_]; [lia|].
  unfold bind, try_catch, Date_now, axios_request.
  rewrite Hjob. cbn [lift ret]. rewrite Hnet, Hdata. cbn [lift ret].
  rewrite He. reflexivity.
Qed.

Lemma pollQueue_throws_on_missing_body_witness :
  exists e,
    get JsNull "status" = Throw e
    /\ pollQueue (scripted [(25, Fulfilled (axios_response 200 JsNull))]) 0
         (JsString "J1") (JsNumber 1000) 0 world0
       = (Thrown e, issued GET (poll_url "J1") 25 world0).
Proof.
  apply (pollQueue_throws_on_missing_body
           (scripted [(25, Fulfilled (axios_response 200 JsNull))]) 0
           (JsString "J1") (JsNumber 1000) "J1" 0 world0 25
           (axios_response 200 JsNull) JsNull);
    [lia | reflexivity | reflexivity | reflexivity | reflexivity].
Defined.

End PollFacts.

(** ** The messages *)

Module MessageFacts.
Import Client Scenario Protocol.
Local Open Scope js_scope.

Lemma Array_join_strings (sep : string) (l : list string) :
  Array_join sep (map JsString l) = Normal (String.concat sep l).
Proof.
  induction l as [|x rest IH]; [reflexivity|].
  cbn [map Array_join element_string nullish ToString].
  destruct rest as [|y rest']; [reflexivity|].
  cbn [map] in *. rewrite IH. reflexivity.
Qed.

(** X7: for [PackageVersionMismatchError] with a list of version strings,
    the message is the fixed lead-in followed by the versions joined by a
    comma and a space, in their order; the stack plays no part and nothing
    is logged. *)
Theorem getErrorMessage_version_list (versions : list string)
    (stack : option string) (w : World) :
  getErrorMessage
    (error_object "PackageVersionMismatchError" (JsArray (map JsString versions)) stack) w
  = (Returned
       ("The given version for this package was not found on the npm registry." ++ nl
        ++ " Found versions: " ++ nl ++ String.concat ", " versions),
     w).
Proof.
  unfold getErrorMessage, bind. cbn [get error_object read lookup String.eqb Ascii.eqb
    Bool.eqb lift ret is_string PackageNotFoundError PackageVersionMismatchError].
  cbn [call_join]. rewrite Array_join_strings. cbn [lift ret].
  reflexivity.
Qed.

(** X8: for [TypeDocBuildError] with a text and a stack that are strings,
    the message wraps both, as they are and in that order, the stack after a
    newline, between the fixed opening and closing HTML; so the message
    contains the stack. *)
Theorem getErrorMessage_typedoc_with_stack (extra stack : string) (w : World) :
  let message :=
    typedoc_head ++ extra ++ "</b>" ++ nl ++ stack ++ typedoc_tail in
  getErrorMessage (error_object "TypeDocBuildError" (JsString extra) (Some stack)) w
    = (Returned message, w)
  /\ includes stack message = true.
Proof.
  intros message. split; [reflexivity|]. subst message.
  apply (includes_after _ typedoc_head), (includes_after _ extra),
    (includes_after _ "</b>"), (includes_after _ nl), includes_here.
Qed.

(** X9: [getErrorMessage] always completes, and all it can do to the world
    is log one warning that carries the error: the clock, the requests and
    the timers are left as they were. *)
Theorem getErrorMessage_only_warns (error : JsValue) (w : World) :
  exists r w',
    getErrorMessage error w = (r, w')
    /\ r <> Pending
    /\ (w' = w
        \/ w' = warned [JsString "Could not get error message for error: "; error] w).
Proof. apply PollFacts.getErrorMessage_effect. Qed.

End MessageFacts.

(** ** The entry points *)

Module EntryFacts.
Import Client Scenario Protocol.
Local Open Scope js_scope.

(** X10: a trigger that is answered [queued], followed by [n] status
    queries answered [queued] and one answered [success], all within the
    budget, makes [getPackageDocs] return a success; the job id and the poll
    interval are the ones of the trigger's answer, the requests are the
    trigger and [n + 1] status queries, and [n] timers are set. *)
Theorem getPackageDocs_polls_until_success (P : Platform) (n fuel : nat)
    (pkg pkgVersion : string) (force : bool) (w : World) (c d : Z)
    (response data : JsValue) (job : string) :
  let url := request_url "/api/docs/trigger/" pkg pkgVersion force in
  let k := S (length (requests w)) in
  (n <= fuel)%nat ->
  respond P (length (requests w)) POST url = (d, Fulfilled response) ->
  get response "data" = Normal data ->
  get data "status" = Normal (JsString "queued") ->
  ToString (read data "jobId") = Normal job ->
  0 <= c ->
  Z.of_nat n * c <= 200000 ->
  (forall i, (i < n)%nat ->
     answers P (k + i) job "queued"
     /\ round_at_most P (k + i) (length (timers w) + i) job
          (read data "pollInterval") c) ->
  answers P (k + n) job "success" ->
  exists w',
    getPackageDocs P fuel pkg pkgVersion force w = (Returned Success, w')
    /\ requests w'
       = (requests w ++ (POST, url) :: repeat (GET, poll_url job) (S n))%list
    /\ timers w' = (timers w ++ repeat (read data "pollInterval") n)%list.
Proof.
  intros url k Hfuel Hnet Hdata Hstatus Hjob Hc Hbudget Hqueued Hsuccess.
  unfold getPackageDocs, try_catch, axios_request. fold url. rewrite Hnet.
  unfold bind at 1. rewrite Hdata. cbn [lift ret].
  unfold bind at 1. rewrite Hstatus.
  cbn [lift ret is_string String.eqb Ascii.eqb Bool.eqb].
  unfold bind at 1. rewrite (PollFacts.get_defined _ _ _ Hstatus "jobId"). cbn [lift ret].
  unfold bind at 1. rewrite (PollFacts.get_defined _ _ _ Hstatus "pollInterval").
  cbn [lift ret].
  destruct (PollFacts.rounds_then_success P n fuel (read data "jobId")
              (read data "pollInterval") job 0 (issued POST url d w) c)
    as (w' & Hrun & Hreq & Htim).
  - exact Hfuel.
  - exact Hjob.
  - exact Hc.
  - lia.
  - intros i Hi. rewrite PollFacts.issued_requests. apply Hqueued. exact Hi.
  - rewrite PollFacts.issued_requests. exact Hsuccess.
  - exists w'. split; [exact Hrun|]. split.
    + rewrite Hreq. cbn [issued requests]. rewrite <- app_assoc. reflexivity.
    + rewrite Htim. reflexivity.
Qed.

Local Ltac answered := do 3 eexists; repeat split; reflexivity.

Lemma getPackageDocs_polls_until_success_witness :
  let P :=
    scripted [(30, Fulfilled (axios_response 200
                     (JsObject [("status", JsString "queued");
                                ("jobId", JsString "J1");
                                ("pollInterval", JsNumber 1000)])));
              (20, poll_reply "queued"); (20, poll_reply "success")] in
  exists w',
    getPackageDocs P 1 "left-pad" "1.3.0" false world0 = (Returned Success, w')
    /\ requests w'
       = [(POST, "/api/docs/trigger/left-pad/1.3.0");
          (GET, "/api/docs/poll/J1"); (GET, "/api/docs/poll/J1")]
    /\ timers w' = [JsNumber 1000].
Proof.
  intros P.
  apply (getPackageDocs_polls_until_success P 1 1 "left-pad" "1.3.0" false world0
           1020 30
           (axios_response 200
              (JsObject [("status", JsString "queued"); ("jobId", JsString "J1");
                         ("pollInterval", JsNumber 1000)]))
           (JsObject [("status", JsString "queued"); ("jobId", JsString "J1");
                      ("pollInterval", JsNumber 1000)])
           "J1").
  - lia.
  - reflexivity.
  - reflexivity.
  - reflexivity.
  - reflexivity.
  - lia.
  - lia.
  - intros i Hi. destruct i as [|i]; [|lia].
    split; [answered | unfold round_at_most; cbn; lia].
  - answered.
Defined.

(** X11: a trigger that is answered with a status that is neither
    [success] nor [queued] makes [getPackageDocs] return the failure
    [UNEXPECTED_DOCS_TRIGGER_STATUS], whose message is the lead-in of the
    poll client (it speaks of the polling API) followed by the status; the
    trigger is the only request and no status query follows. *)
Theorem getPackageDocs_unknown_trigger_status (P : Platform) (fuel : nat)
    (pkg pkgVersion : string) (force : bool) (w : World) (d : Z)
    (response data status : JsValue) :
  let url := request_url "/api/docs/trigger/" pkg pkgVersion force in
  respond P (length (requests w)) POST url = (d, Fulfilled response) ->
  get response "data" = Normal data ->
  get data "status" = Normal status ->
  status <> JsString "success" ->
  status <> JsString "queued" ->
  stringifiable status = true ->
  exists text,
    ToString status = Normal text
    /\ getPackageDocs P fuel pkg pkgVersion force w
       = (Returned
            (Failure (JsString "UNEXPECTED_DOCS_TRIGGER_STATUS")
               ("Failed because the polling API returned an unknown status: " ++ text)),
          issued POST url d w).
Proof.
  intros url Hnet Hdata Hstatus Hs Hq Hconv.
  apply ToString_completes in Hconv. destruct Hconv as [text Htext].
  exists text. split; [exact Htext|].
  unfold getPackageDocs, try_catch, axios_request. fold url. rewrite Hnet.
  unfold bind. rewrite Hdata. cbn [lift ret]. rewrite Hstatus. cbn [lift ret].
  rewrite !PollFacts.is_string_other by assumption.
  rewrite Htext. reflexivity.
Qed.

Lemma getPackageDocs_unknown_trigger_status_witness :
  exists text,
    ToString (JsString "failed") = Normal text
    /\ getPackageDocs
         (scripted [(30, Fulfilled (axios_response 200
                           (JsObject [("status", JsString "failed")])))])
         0 "left-pad" "" false world0
       = (Returned
            (Failure (JsString "UNEXPECTED_DOCS_TRIGGER_STATUS")
               ("Failed because the polling API returned an unknown status: " ++ text)),
          issued POST "/api/docs/trigger/left-pad" 30 world0).
Proof.
  apply (getPackageDocs_unknown_trigger_status
           (scripted [(30, Fulfilled (axios_response 200
                             (JsObject [("status", JsString "failed")])))])
           0 "left-pad" "" false world0 30
           (axios_response 200 (JsObject [("status", JsString "failed")]))
           (JsObject [("status", JsString "failed")]) (JsString "failed"));
    [reflexivity | reflexivity | reflexivity | discriminate | discriminate | reflexivity].
Defined.

(** X12: [getPackageDocsSync] takes every answer whose status is not
    [success] for a failed build, whatever the status is: it does what
    [getErrorMessage] does on the error made of the body's [errorCode],
    [errorMessage] and [errorStack], and the failure carries the
    [errorCode] as it is, absent when the body has none. *)
Theorem getPackageDocsSync_not_success (P : Platform)
    (pkg pkgVersion : string) (force : bool) (w : World) (d : Z)
    (response data status : JsValue) :
  let url := request_url "/api/docs/build/" pkg pkgVersion force in
  respond P (length (requests w)) POST url = (d, Fulfilled response) ->
  get response "data" = Normal data ->
  get data "status" = Normal status ->
  status <> JsString "success" ->
  getPackageDocsSync P pkg pkgVersion force w
  = bind
      (getErrorMessage
         (JsObject [("name", read data "errorCode");
                    ("extra", read data "errorMessage");
                    ("errorStack", read data "errorStack")]))
      (fun message => ret (Failure (read data "errorCode") message))
      (issued POST url d w).
Proof.
  intros url Hnet Hdata Hstatus Hs.
  unfold getPackageDocsSync, try_catch, axios_request. fold url. rewrite Hnet.
  unfold bind at 1. rewrite Hdata. cbn [lift ret].
  unfold bind at 1. rewrite Hstatus. cbn [lift ret].
  rewrite PollFacts.is_string_other by assumption.
  unfold bind at 1. rewrite (PollFacts.get_defined _ _ _ Hstatus "errorCode"). cbn [lift ret].
  unfold bind at 1. rewrite (PollFacts.get_defined _ _ _ Hstatus "errorMessage"). cbn [lift ret].
  unfold bind at 1. rewrite (PollFacts.get_defined _ _ _ Hstatus "errorStack"). cbn [lift ret].
  reflexivity.
Qed.

Lemma getPackageDocsSync_not_success_witness :
  getPackageDocsSync
    (scripted [(30, Fulfilled (axios_response 200
                      (JsObject [("status", JsString "queued")])))])
    "left-pad" "" false world0
  = (Returned (Failure JsUndefined ""),
     warned [JsString "Could not get error message for error: ";
             JsObject [("name", JsUndefined); ("extra", JsUndefined);
                       ("errorStack", JsUndefined)]]
       (issued POST "/api/docs/build/left-pad" 30 world0)).
Proof.
  apply (getPackageDocsSync_not_success
           (scripted [(30, Fulfilled (axios_response 200
                             (JsObject [("status", JsString "queued")])))])
           "left-pad" "" false world0 30
           (axios_response 200 (JsObject [("status", JsString "queued")]))
           (JsObject [("status", JsString "queued")]) (JsString "queued"));
    [reflexivity | reflexivity | reflexivity | discriminate].
Defined.

(** X13: the URL does not tell a version from a further segment of the
    package name: a package and a version that is not empty give the URL of
    the package name made of both, joined by a slash, with no version. *)
Theorem request_url_version_is_a_segment (endpoint pkg pkgVersion : string)
    (force : bool) :
  pkgVersion <> ""%string ->
  request_url endpoint pkg pkgVersion force
  = request_url endpoint (pkg ++ "/" ++ pkgVersion) "" force.
Proof.
  intros Hv. unfold request_url. cbn [truthy].
  destruct (String.eqb_spec pkgVersion ""); [congruence | reflexivity].
Qed.

Lemma request_url_version_is_a_segment_witness :
  request_url "/api/docs/trigger/" "@types" "node" false
  = request_url "/api/docs/trigger/" ("@types" ++ "/" ++ "node") "" false.
Proof. apply request_url_version_is_a_segment. discriminate. Defined.

End EntryFacts.

(** ** The worker, further *)

Module WorkerMore.
Import Worker Scenario.

(** X14: in a running worker that has not been handed a job yet, the idle
    time is counted from the loading of the module: a tick of the watchdog
    at [now] exits the process when [now - loaded] is more than five
    minutes and changes nothing otherwise. *)
Theorem watchdog_counts_from_load (loaded : Z) (evs : list Event) (now : Z) :
  let p := run (load loaded) evs in
  exit_code p = None ->
  last_job_start evs = None ->
  (1000 * 60 * 5 < now - loaded -> exit_code (step p (Tick now)) = Some 1)
  /\ (now - loaded <= 1000 * 60 * 5 -> step p (Tick now) = p).
Proof.
  intros p Halive Hnone.
  assert (Hactive : workerActiveTime p = loaded).
  { subst p. rewrite WorkerFacts.workerActiveTime_is_last_job_start by exact Halive.
    rewrite Hnone. reflexivity. }
  unfold step. rewrite Halive. unfold watchdog, idle_threshold. rewrite Hactive.
  split.
  - intros Hidle. apply Z.gtb_lt in Hidle. rewrite Hidle. reflexivity.
  - intros Hbusy. destruct (Z.gtb_spec (now - loaded) (1000 * 60 * 5)); [lia | reflexivity].
Qed.

Lemma watchdog_counts_from_load_witness :
  let p := run (load 5000) [Tick 6000; Tick 7000] in
  exit_code (step p (Tick 305001)) = Some 1
  /\ step p (Tick 305000) = p.
Proof.
  intros p.
  destruct (watchdog_counts_from_load 5000 [Tick 6000; Tick 7000] 305001
              eq_refl eq_refl) as [Hexit _].
  destruct (watchdog_counts_from_load 5000 [Tick 6000; Tick 7000] 305000
              eq_refl eq_refl) as [_ Hstay].
  split; [apply Hexit | apply Hstay]; lia.
Defined.

Section AnyBuild.

Variable generateDocsForPackage :
  JsValue -> JsValue -> Job -> Completion JsValue * Job.

(** What the handler asks the build for, and what the build leaves. *)
Let built (job : Job) : Completion JsValue * Job :=
  generateDocsForPackage
    (read (JsObject (data job)) "packageJSON")
    (JsObject [("force", read (JsObject (data job)) "force")]) job.

(** X15: whatever the build does, the handler leaves every property of the
    job's data other than [originalError] as the build left it; and when the
    build resolves, the handler resolves with the same value and does not
    write to the job at all. *)
Theorem handler_keeps_the_payload (now : Z) (job : Job) (p : Process) :
  let result := handler generateDocsForPackage now job p in
  (forall k, k <> "originalError"%string ->
     lookup k (data (snd (fst result))) = lookup k (data (snd (built job))))
  /\ (forall docs, fst (built job) = Normal docs ->
        result = (Normal docs, snd (built job), refresh now p)).
Proof.
  unfold built, handler. cbv zeta.
  destruct (generateDocsForPackage _ _ job) as [[docs|err] job']; cbn [fst snd].
  - split; [reflexivity | intros docs' [= <-]; reflexivity].
  - split; [|discriminate].
    intros k Hk. unfold handler_catch.
    destruct (get err "message") as [code|e]; cbn [fst snd]; [|reflexivity].
    cbn [updateData data]. apply WorkerFacts.lookup_define_other. exact Hk.
Qed.

(** X16: when the build throws [undefined] or [null], reading the message
    of what was thrown throws in turn: the handler throws that [TypeError]
    in place of what the build threw, and writes nothing to the job. *)
Theorem handler_on_thrown_nothing (now : Z) (job : Job) (p : Process)
    (err : JsValue) (job' : Job) :
  built job = (Throw err, job') ->
  nullish err = true ->
  exists e,
    get err "message" = Throw e
    /\ handler generateDocsForPackage now job p = (Throw e, job', refresh now p).
Proof.
  unfold built. intros Hbuild Hnull.
  assert (Hthrow : exists e, get err "message" = Throw e)
    by (destruct err; try discriminate; eexists; reflexivity).
  destruct Hthrow as [e He]. exists e. split; [exact He|].
  unfold handler. rewrite Hbuild. unfold handler_catch. rewrite He. reflexivity.
Qed.

Lemma define_keys (k : string) (v : JsValue) (props : list (string * JsValue)) :
  map fst (define k v props)
  = if has_own k props then map fst props else (map fst props ++ [k])%list.
Proof.
  unfold has_own. induction props as [|[k' v'] rest IH]; cbn; [reflexivity|].
  destruct (String.eqb k' k); cbn; [reflexivity|].
  rewrite IH. destruct (lookup k rest); reflexivity.
Qed.

(** X17: when the build throws an error, the properties of the job's data
    keep their order; [originalError] takes the place it had when the data
    already had one (from an earlier attempt), and is added last
    otherwise. *)
Theorem handler_originalError_place (now : Z) (job : Job) (p : Process)
    (err : JsValue) (job' : Job) :
  built job = (Throw err, job') ->
  nullish err = false ->
  map fst (data (snd (fst (handler generateDocsForPackage now job p))))
  = if has_own "originalError" (data job') then map fst (data job')
    else (map fst (data job') ++ ["originalError"%string])%list.
Proof.
  unfold built. intros Hbuild Herr. unfold handler. rewrite Hbuild.
  unfold handler_catch.
  assert (Hmsg : get err "message" = Normal (read err "message"))
    by (destruct err; discriminate || reflexivity).
  rewrite Hmsg. cbn [fst snd updateData data]. apply define_keys.
Qed.

End AnyBuild.

(** A build that resolves, and one that throws nothing. *)
Lemma handler_keeps_the_payload_witness :
  let build := fun (_ _ : JsValue) (job : Job) => (Normal (JsString "docs"), job) in
  handler build 1700000000000 job0 (load 0)
  = (Normal (JsString "docs"), job0, refresh 1700000000000 (load 0))
  /\ lookup "force" (data (snd (fst (handler failing_build 1700000000000 job0 (load 0)))))
     = lookup "force" (data job0).
Proof.
  intros build. split.
  - apply (proj2 (handler_keeps_the_payload build 1700000000000 job0 (load 0))
             (JsString "docs")).
    reflexivity.
  - apply (proj1 (handler_keeps_the_payload failing_build 1700000000000 job0 (load 0))).
    discriminate.
Defined.

Lemma handler_on_thrown_nothing_witness :
  let build := fun (_ _ : JsValue) (job : Job) => (@Throw JsValue JsUndefined, job) in
  exists e,
    get JsUndefined "message" = Throw e
    /\ handler build 1700000000000 job0 (load 0)
       = (Throw e, job0, refresh 1700000000000 (load 0)).
Proof.
  intros build.
  apply (handler_on_thrown_nothing build 1700000000000 job0 (load 0) JsUndefined job0);
    reflexivity.
Defined.

Lemma handler_originalError_place_witness :
  map fst (data (snd (fst (handler failing_build 1700000000000 job0 (load 0)))))
  = if has_own "originalError" (data job0) then map fst (data job0)
    else (map fst (data job0) ++ ["originalError"%string])%list.
Proof.
  apply (handler_originalError_place failing_build 1700000000000 job0 (load 0)
           typedoc_failure job0); reflexivity.
Defined.

End WorkerMore.
